(** * Grid-Station-Image-Processor: the corner locator and the crop pipeline

    A shallow embedding of [grid_image_processor/processor.py].  Pixel
    coordinates, sizes and offsets are Python integers, here [Z].  An image
    is the imaging library's object: a mode, a size and one pixel per
    coordinate; the modes covered are RGBA, RGB, LA and L.  What the
    processor calls and does not define itself (decoder, encoder,
    resampling filter, file system) is gathered in the interface
    [Platform], so that the statements hold for whatever these do. *)

From Stdlib Require Import ZArith List String Ascii Bool Lia.
Import ListNotations.
Local Open Scope Z_scope.

(** ** Python built-ins used by the processor *)

Module Py.

(** [range(n)]: 0, 1, ..., n-1 (empty when [n <= 0]). *)
Definition range (n : Z) : list Z :=
  map Z.of_nat (seq 0 (Z.to_nat n)).

(** [range(start, stop, -1)]: start, start-1, ..., stop+1; the stop value
    itself is excluded (empty when [start <= stop]). *)
Definition range_down (start stop : Z) : list Z :=
  map (fun k => start - Z.of_nat k) (seq 0 (Z.to_nat (start - stop))).

(** [str.lower] on ASCII letters. *)
Definition lower_ascii (c : ascii) : ascii :=
  let n := nat_of_ascii c in
  if (Nat.leb 65 n && Nat.leb n 90)%bool then ascii_of_nat (n + 32) else c.

Fixpoint lower (s : string) : string :=
  match s with
  | EmptyString => EmptyString
  | String c s' => String (lower_ascii c) (lower s')
  end.

(** [s.endswith(suffix)]. *)
Definition endswith (s suffix : string) : bool :=
  let n := String.length s in
  let k := String.length suffix in
  (Nat.leb k n && String.eqb (substring (n - k) k s) suffix)%bool.

(** The exceptions that reach the processor's [except Exception]. *)
Inductive Exception : Type :=
| ValueError (msg : string)
| OSError (msg : string)
| DecompressionBombError (msg : string)
| OverflowError (msg : string).

End Py.

(** ** The imaging library's images *)

Module PIL.

Inductive Mode : Type := RGBA | RGB | LA | L.

(** What [getpixel] returns in each mode: a tuple of 8-bit bands. *)
Definition rgba : Type := (Z * Z * Z * Z)%type.
Definition rgb : Type := (Z * Z * Z)%type.

Definition pixel_of (m : Mode) : Type :=
  match m with
  | RGBA => rgba
  | RGB => rgb
  | LA => (Z * Z)%type
  | L => Z
  end.

(** A raster: [size] is (width, height); [getpixel] is read only at
    coordinates inside the raster (the library raises IndexError
    elsewhere; see [scan_in_bounds] and [fallback_in_bounds]). *)
Record Raster (P : Type) : Type := mkRaster {
  size : Z * Z;
  getpixel : Z * Z -> P
}.
Arguments mkRaster {P} _ _.
Arguments size {P} _.
Arguments getpixel {P} _ _.

Record Image : Type := mkImage {
  mode : Mode;
  raster : Raster (pixel_of mode)
}.

Definition Image_size (img : Image) : Z * Z := size (raster img).

(** The fill value of pixels a crop takes from outside its source. *)
Definition zero_pixel (m : Mode) : pixel_of m :=
  match m with
  | RGBA => (0, 0, 0, 0)
  | RGB => (0, 0, 0)
  | LA => (0, 0)
  | L => 0
  end.

(** [convert('RGBA')] per pixel: alpha is 255 where the source has none. *)
Definition to_rgba (m : Mode) : pixel_of m -> rgba :=
  match m with
  | RGBA => fun p => p
  | RGB => fun p => let '(r, g, b) := p in (r, g, b, 255)
  | LA => fun p => let '(l, a) := p in (l, l, l, a)
  | L => fun l => (l, l, l, 255)
  end.

Definition convert_RGBA (img : Image) : Raster rgba :=
  mkRaster (Image_size img)
           (fun xy => to_rgba (mode img) (getpixel (raster img) xy)).

Definition inside {P : Type} (r : Raster P) (xy : Z * Z) : bool :=
  let '(width, height) := size r in
  let '(x, y) := xy in
  (0 <=? x) && (x <? width) && (0 <=? y) && (y <? height).

(** [Image.crop(box)]: the box is (left, upper, right, lower); a box with
    right < left or lower < upper is refused with ValueError, any other
    box gives a raster of size (right-left, lower-upper) whose pixels
    outside the source are zero. *)
Definition crop_raster {P : Type} (zero : P) (r : Raster P)
    (box : Z * Z * Z * Z) : Raster P :=
  let '(left_, upper, right_, lower) := box in
  mkRaster (right_ - left_, lower - upper)
           (fun xy =>
              let src := (fst xy + left_, snd xy + upper) in
              if inside r src then getpixel r src else zero).

Definition crop (img : Image) (box : Z * Z * Z * Z)
    : Py.Exception + Image :=
  let '(left_, upper, right_, lower) := box in
  if right_ <? left_ then
    inl (Py.ValueError "Coordinate 'right' is less than 'left'")
  else if lower <? upper then
    inl (Py.ValueError "Coordinate 'lower' is less than 'upper'")
  else
    inr (mkImage (mode img)
           (crop_raster (zero_pixel (mode img)) (raster img) box)).

(** A resampling filter computes each pixel of the target raster from the
    source raster and the target size.  The processor asks for
    [Image.Resampling.LANCZOS]; its kernel is floating point and is left
    to the platform. *)
Definition Resampling : Type :=
  forall m : Mode, Raster (pixel_of m) -> Z * Z -> Z * Z -> pixel_of m.

(** [Image.resize(size, resample)]: a target width or height below 1 is
    refused with ValueError; the result has the requested size and the
    mode of the source. *)
Definition resize (img : Image) (target : Z * Z) (resample : Resampling)
    : Py.Exception + Image :=
  if (fst target <? 1) || (snd target <? 1) then
    inl (Py.ValueError "height and width must be > 0")
  else
    inr (mkImage (mode img)
           (mkRaster target (resample (mode img) (raster img) target))).

(** [Image.new('RGB', size, color)]. *)
Definition new_RGB (sz : Z * Z) (color : rgb) : Raster rgb :=
  mkRaster sz (fun _ => color).

(** [im.split()[-1]] of an RGBA image: its alpha band. *)
Definition alpha_band (im : Raster rgba) : Raster Z :=
  mkRaster (size im) (fun xy => let '(_, _, _, a) := getpixel im xy in a).

(** The library's 8-bit blend, used by [paste] under an 8-bit mask:
    DIV255(a) = ((a + 128 >> 8) + a + 128) >> 8 and
    BLEND8(mask, in1, in2) = DIV255(in1 * (255 - mask) + in2 * mask). *)
Definition DIV255 (a : Z) : Z :=
  let tmp := a + 128 in
  Z.shiftr (Z.shiftr tmp 8 + tmp) 8.

Definition BLEND8 (mask in1 in2 : Z) : Z :=
  DIV255 (in1 * (255 - mask) + in2 * mask).

(** [background.paste(im, mask=mask)] for an RGB background and an RGBA
    source of the same size: every pixel of the background is blended
    with the source's colour bands under the mask. *)
Definition paste (background : Raster rgb) (im : Raster rgba)
    (mask : Raster Z) : Raster rgb :=
  mkRaster (size background)
           (fun xy =>
              let '(r0, g0, b0) := getpixel background xy in
              let '(r, g, b, _) := getpixel im xy in
              let a := getpixel mask xy in
              (BLEND8 a r0 r, BLEND8 a g0 g, BLEND8 a b0 b)).

End PIL.

(** ** The platform: decoder, encoder, resampling filter, file system *)

(** [World] is the state of the file system.  A call that raises returns
    the exception; a call that writes returns the new state even when it
    raises, because an exception does not undo what was written before
    it. *)
Class Platform : Type := {
  World : Type;
  LANCZOS : PIL.Resampling;
  Image_open : string -> World -> Py.Exception + PIL.Image;
  Image_save : PIL.Image -> string -> World -> World * option Py.Exception;
  os_makedirs : string -> World -> World * option Py.Exception;
  os_listdir : string -> World -> Py.Exception + list string;
  os_path_join : string -> string -> string;
  os_path_dirname : string -> string
}.

Module Run.
Section Monad.
Context {platform : Platform}.

(** A computation that may write to the file system and may raise. *)
Definition M (A : Type) : Type := World -> World * (Py.Exception + A).

Definition ret {A : Type} (a : A) : M A := fun w => (w, inr a).

Definition bind {A B : Type} (c : M A) (k : A -> M B) : M B :=
  fun w =>
    match c w with
    | (w', inl e) => (w', inl e)
    | (w', inr a) => k a w'
    end.

(** A call that only reads or only computes. *)
Definition pure {A : Type} (f : World -> Py.Exception + A) : M A :=
  fun w => (w, f w).

(** A call that writes and returns nothing. *)
Definition effect (f : World -> World * option Py.Exception) : M unit :=
  fun w =>
    match f w with
    | (w', Some e) => (w', inl e)
    | (w', None) => (w', inr tt)
    end.

(** [try: body; return True / except Exception: return False]. *)
Definition try_bool (body : M unit) : World -> World * bool :=
  fun w =>
    match body w with
    | (w', inr _) => (w', true)
    | (w', inl _) => (w', false)
    end.

End Monad.
End Run.

Notation "x <- c ;; k" := (Run.bind c (fun x => k))
  (at level 61, c at next level, right associativity).

(** ** The processor *)

Module GridImageProcessor.
Import PIL.

(** [self]: the two attributes set by [__init__]. *)
Record t : Type := mk {
  target_size : Z * Z;
  bracket_offset : Z
}.

(** The defaults of [__init__]. *)
Definition default : t := mk (670, 366) 2.

(** A candidate point is the first pixel with r == 0 and g == 0 and
    b == 0. *)
Definition is_black (p : rgba) : bool :=
  let '(r, g, b, _) := p in
  (r =? 0) && (g =? 0) && (b =? 0).

(** The inner [for x in ...] loop of a corner search: it stops at the
    first black pixel of row [y]. *)
Fixpoint scan_row (img : Raster rgba) (y : Z) (xs : list Z)
    : option (Z * Z) :=
  match xs with
  | [] => None
  | x :: xs' =>
      if is_black (getpixel img (x, y)) then Some (x, y)
      else scan_row img y xs'
  end.

(** The outer [for y in ...] loop: it stops after the first row in which
    the inner loop found a point. *)
Fixpoint scan (img : Raster rgba) (ys xs : list Z) : option (Z * Z) :=
  match ys with
  | [] => None
  | y :: ys' =>
      match scan_row img y xs with
      | Some p => Some p
      | None => scan img ys' xs
      end
  end.

(** The rows and columns each of the four searches walks through. *)
Definition near_rows (height : Z) : list Z := Py.range (Z.min 50 height).
Definition near_cols (width : Z) : list Z := Py.range (Z.min 50 width).
Definition far_rows (height : Z) : list Z :=
  Py.range_down (height - 1) (Z.max (height - 50) 0).
Definition far_cols (width : Z) : list Z :=
  Py.range_down (width - 1) (Z.max (width - 50) 0).

Definition top_left (img : Raster rgba) : option (Z * Z) :=
  let '(width, height) := size img in
  scan img (near_rows height) (near_cols width).

Definition bottom_right (img : Raster rgba) : option (Z * Z) :=
  let '(width, height) := size img in
  scan img (far_rows height) (far_cols width).

Definition top_right (img : Raster rgba) : option (Z * Z) :=
  let '(width, height) := size img in
  scan img (near_rows height) (far_cols width).

Definition bottom_left (img : Raster rgba) : option (Z * Z) :=
  let '(width, height) := size img in
  scan img (far_rows height) (near_cols width).

(** A pixel is content unless r > 250 and g > 250 and b > 250. *)
Definition is_content (p : rgba) : bool :=
  let '(r, g, b, _) := p in
  negb ((r >? 250) && (g >? 250) && (b >? 250)).

(** One iteration of the fallback's inner loop on the running
    (left, top, right, bottom). *)
Definition fallback_step (img : Raster rgba) (y : Z)
    (acc : Z * Z * Z * Z) (x : Z) : Z * Z * Z * Z :=
  let '(left_, top, right_, bottom) := acc in
  if is_content (getpixel img (x, y)) then
    (Z.min left_ x, Z.min top y, Z.max right_ x, Z.max bottom y)
  else acc.

Definition fallback_row (img : Raster rgba) (width : Z)
    (acc : Z * Z * Z * Z) (y : Z) : Z * Z * Z * Z :=
  fold_left (fallback_step img y) (Py.range width) acc.

Definition _find_content_bounds_fallback (img : Raster rgba)
    : Z * Z * Z * Z :=
  let '(width, height) := size img in
  fold_left (fallback_row img width) (Py.range height)
            (width, height, 0, 0).

(** Lines 76-87: the rectangle from the two required corners, widened by
    the two optional ones. *)
Definition reconcile (offset : Z) (tl br : Z * Z)
    (tr bl : option (Z * Z)) : Z * Z * Z * Z :=
  let left_ := fst tl + offset in
  let top := snd tl + offset in
  let right_ := fst br - offset in
  let bottom := snd br - offset in
  let '(right_, top) :=
    match tr with
    | Some p => (Z.max right_ (fst p - offset), Z.min top (snd p + offset))
    | None => (right_, top)
    end in
  let '(left_, bottom) :=
    match bl with
    | Some p => (Z.min left_ (fst p + offset), Z.max bottom (snd p - offset))
    | None => (left_, bottom)
    end in
  (left_, top, right_, bottom).

(** Line 89: right > left and bottom > top. *)
Definition valid (rect : Z * Z * Z * Z) : bool :=
  let '(left_, top, right_, bottom) := rect in
  (right_ >? left_) && (bottom >? top).

(** Lines 29-30: the image the searches read. *)
Definition as_RGBA (img : Image) : Raster rgba :=
  match img with
  | mkImage RGBA r => r
  | _ => convert_RGBA img
  end.

Definition find_bracket_intersections (self : t) (img : Image)
    : Z * Z * Z * Z :=
  let img := as_RGBA img in
  match top_left img, bottom_right img with
  | Some tl, Some br =>
      let rect :=
        reconcile (bracket_offset self) tl br
                  (top_right img) (bottom_left img) in
      if valid rect then rect
      else _find_content_bounds_fallback img
  | _, _ => _find_content_bounds_fallback img
  end.

Section WithPlatform.
Context {platform : Platform}.

(** Line 133: the box handed to [crop]. *)
Definition crop_box (bounds : Z * Z * Z * Z) : Z * Z * Z * Z :=
  let '(left_, top, right_, bottom) := bounds in
  (left_, top, right_ + 1, bottom + 1).

(** Lines 141-144: an RGBA image is pasted on a white RGB background
    under its own alpha band; an image of another mode is kept. *)
Definition flatten (resized : Image) : Image :=
  match resized with
  | mkImage RGBA r =>
      let background := new_RGB (size r) (255, 255, 255) in
      mkImage RGB (paste background r (alpha_band r))
  | _ => resized
  end.

(** Lines 130-144 of [process_image]: from the opened image to the image
    that is saved. *)
Definition crop_resize_flatten (self : t) (img : Image)
    : Py.Exception + Image :=
  let bounds := find_bracket_intersections self img in
  match crop img (crop_box bounds) with
  | inl e => inl e
  | inr cropped =>
      match resize cropped (target_size self) LANCZOS with
      | inl e => inl e
      | inr resized => inr (flatten resized)
      end
  end.

(** The body of the [try] of [process_image] (printing left out). *)
Definition process_image_body (self : t) (input_path output_path : string)
    : Run.M unit :=
  img <- Run.pure (Image_open input_path) ;;
  out <- Run.pure (fun _ => crop_resize_flatten self img) ;;
  _ <- Run.effect (os_makedirs (os_path_dirname output_path)) ;;
  Run.effect (Image_save out output_path).

Definition process_image (self : t) (input_path output_path : string)
    : World -> World * bool :=
  Run.try_bool (process_image_body self input_path output_path).

(** Line 172: the names kept by the listing filter. *)
Definition is_png (f : string) : bool := Py.endswith (Py.lower f) ".png".

(** Lines 187-194: the loop over the files, on the two counters. *)
Fixpoint batch_loop (self : t) (input_dir output_dir : string)
    (png_files : list string) (successful failed : nat) (w : World)
    : World * (nat * nat) :=
  match png_files with
  | [] => (w, (successful, failed))
  | png_file :: rest =>
      let input_path := os_path_join input_dir png_file in
      let output_path := os_path_join output_dir png_file in
      match process_image self input_path output_path w with
      | (w', true) =>
          batch_loop self input_dir output_dir rest (S successful) failed w'
      | (w', false) =>
          batch_loop self input_dir output_dir rest successful (S failed) w'
      end
  end.

Definition batch_process (self : t) (input_dir output_dir : string)
    : Run.M (nat * nat) :=
  _ <- Run.effect (os_makedirs output_dir) ;;
  names <- Run.pure (os_listdir input_dir) ;;
  let png_files := filter is_png names in
  match png_files with
  | [] => Run.ret (0%nat, 0%nat)
  | _ => fun w => let '(w', counts) :=
                    batch_loop self input_dir output_dir png_files 0 0 w in
                  (w', inr counts)
  end.

End WithPlatform.

End GridImageProcessor.

Import PIL GridImageProcessor.

(** ** Vocabulary of the statements *)

(** The coordinates the two nested loops visit, in their order. *)
Definition visited (width height : Z) : list (Z * Z) :=
  flat_map (fun y => map (fun x => (x, y)) (Py.range width)) (Py.range height).

Definition visit (img : Raster rgba) (acc : Z * Z * Z * Z) (p : Z * Z)
    : Z * Z * Z * Z :=
  fallback_step img (snd p) acc (fst p).

(** A bound is attained when some content pixel of the list has it as its
    coordinate. *)
Definition attained (img : Raster rgba) (ps : list (Z * Z))
    (proj : Z * Z -> Z) (v : Z) : Prop :=
  exists p, In p ps /\ is_content (getpixel img p) = true /\ proj p = v.


(** ** Sample images *)

(** Sample rasters: a white sheet with black pixels at the listed points. *)
Definition mem_point (p : Z * Z) (pts : list (Z * Z)) : bool :=
  existsb (fun q => (fst p =? fst q) && (snd p =? snd q)) pts.

Definition sheet (sz : Z * Z) (pts : list (Z * Z)) : Raster rgba :=
  mkRaster sz (fun p => if mem_point p pts then (0, 0, 0, 255)
                        else (255, 255, 255, 255)).

Definition sheet_RGBA (sz : Z * Z) (pts : list (Z * Z)) : Image :=
  mkImage RGBA (sheet sz pts).

Definition sheet_RGB (sz : Z * Z) (pts : list (Z * Z)) : Image :=
  mkImage RGB (mkRaster sz (fun p => if mem_point p pts then (0, 0, 0)
                                     else (255, 255, 255))).



(** A greyscale sheet and a greyscale sheet with an alpha band that is
    transparent at the listed points. *)
Definition sheet_L (sz : Z * Z) (pts : list (Z * Z)) : Image :=
  mkImage L (mkRaster sz (fun p => if mem_point p pts then 0 else 255)).

Definition sheet_LA (sz : Z * Z) (clear : list (Z * Z)) : Image :=
  mkImage LA (mkRaster sz (fun p => if mem_point p clear then (40, 0)
                                    else (40, 255))).

(** The outcomes of the files of a batch, in the order of the loop. *)
Fixpoint batch_outcomes {platform : Platform} (self : t)
    (input_dir output_dir : string) (png_files : list string) (w : World)
    : list bool :=
  match png_files with
  | [] => []
  | png_file :: rest =>
      let '(w', ok) :=
        process_image self (os_path_join input_dir png_file)
                      (os_path_join output_dir png_file) w in
      ok :: batch_outcomes self input_dir output_dir rest w'
  end.

(** How many outcomes of a batch are [b]. *)
Definition count (outcomes : list bool) (b : bool) : nat :=
  count_occ bool_dec outcomes b.

(** The pipeline in the words of the specification: the input is first
    normalised to RGBA, and the locator, crop, resize and flatten all work
    on the normalised image. *)
Definition normalize (img : Image) : Image := mkImage RGBA (as_RGBA img).

Definition process_normalized {platform : Platform} (self : t) (img : Image)
    : Py.Exception + Image :=
  crop_resize_flatten self (normalize img).

(** An 8-bit band value. *)
Definition octet (v : Z) : Prop := 0 <= v <= 255.

(** ** A small platform to run the processor on *)

Module Toy.
Local Open Scope string_scope.

(** A file system as a list of paths with what lies there; the first entry
    of a path is the current one. *)
Inductive Node : Type :=
| Png (img : Image)
| Garbage
| Directory.

Definition Files : Type := list (string * Node).

Fixpoint lookup (path : string) (w : Files) : option Node :=
  match w with
  | [] => None
  | (p, node) :: w' => if String.eqb p path then Some node else lookup path w'
  end.

Definition has_slash (s : string) : bool :=
  match index 0 "/" s with
  | Some _ => true
  | None => false
  end.

Definition join (a b : string) : string := a ++ "/" ++ b.

(** The part of a path before its last slash ("" when it has none). *)
Fixpoint dirname (s : string) : string :=
  match s with
  | EmptyString => EmptyString
  | String c s' => if has_slash s' then String c (dirname s') else EmptyString
  end.

(** The name of [path] inside [dir], when [path] lies directly in it. *)
Definition child_of (dir path : string) : option string :=
  let pre := dir ++ "/" in
  if prefix pre path then
    let name :=
      substring (String.length pre)
                (String.length path - String.length pre) path in
    if has_slash name || String.eqb name "" then None else Some name
  else None.

Fixpoint children (dir : string) (w : Files) : list string :=
  match w with
  | [] => []
  | (p, _) :: w' =>
      match child_of dir p with
      | Some name => name :: children dir w'
      | None => children dir w'
      end
  end.

Definition open (path : string) (w : Files) : Py.Exception + Image :=
  match lookup path w with
  | Some (Png img) => inr img
  | Some Garbage => inl (Py.OSError "cannot identify image file")
  | Some Directory => inl (Py.OSError "Is a directory")
  | None => inl (Py.OSError "No such file or directory")
  end.

Definition save (img : Image) (path : string) (w : Files)
    : Files * option Py.Exception :=
  match lookup (dirname path) w with
  | Some Directory => ((path, Png img) :: w, None)
  | _ => (w, Some (Py.OSError "No such file or directory"))
  end.

Definition makedirs (path : string) (w : Files)
    : Files * option Py.Exception :=
  match lookup path w with
  | Some Directory => (w, None)
  | Some _ => (w, Some (Py.OSError "File exists"))
  | None =>
      if String.eqb path "" then
        (w, Some (Py.OSError "No such file or directory"))
      else ((path, Directory) :: w, None)
  end.

Definition listdir (dir : string) (w : Files)
    : Py.Exception + list string :=
  match lookup dir w with
  | Some Directory => inr (nodup string_dec (children dir w))
  | _ => inl (Py.OSError "Not a directory")
  end.

(** Nearest-neighbour sampling stands in for the filter. *)
Definition nearest : Resampling :=
  fun m r target xy =>
    getpixel r (fst xy * fst (size r) / fst target,
                snd xy * snd (size r) / snd target).

#[local] Instance platform : Platform := {|
  World := Files;
  LANCZOS := nearest;
  Image_open := open;
  Image_save := save;
  os_makedirs := makedirs;
  os_listdir := listdir;
  os_path_join := join;
  os_path_dirname := dirname
|}.

(** A directory with three PNG files, one of them undecodable, and a file
    that is not a PNG. *)
Definition brackets_100 : Image :=
  sheet_RGBA (100, 100) [(1, 1); (98, 1); (1, 98); (98, 98)].

Definition shots : Files :=
  [ ("shots", Directory);
    ("shots/a.png", Png brackets_100);
    ("shots/b.PNG", Garbage);
    ("shots/notes.txt", Garbage);
    ("shots/c.png", Png (sheet_RGB (60, 40) [(5, 5); (20, 30)])) ].

(** The file system after [makedirs "processed"]. *)
Definition shots_ready : Files := ("processed", Directory) :: shots.


(** A greyscale image with two black marks, and what the default processor
    makes of it. *)
Definition grey : Image := sheet_L (100, 100) [(1, 1); (98, 98)].

Definition result_or (fallback : Image) (r : Py.Exception + Image) : Image :=
  match r with
  | inr out => out
  | inl _ => fallback
  end.

Definition grey_out : Image :=
  result_or grey (crop_resize_flatten default grey).

(** A greyscale image with an alpha band, transparent at two points. *)
Definition veil : Image := sheet_LA (4, 4) [(0, 0); (3, 3)].

End Toy.

(** The mode of the image a run of the pipeline produced, if any. *)
Definition result_mode (r : Py.Exception + Image) : option Mode :=
  match r with
  | inr out => Some (mode out)
  | inl _ => None
  end.

From Stdlib Require Import Sorted.

(** ** More vocabulary *)

(** The three colour bands of a pixel; the searches and the fallback read
    nothing else. *)
Definition colour (p : rgba) : rgb :=
  let '(r, g, b, _) := p in (r, g, b).

(** Some pixel inside the raster is content. *)
Definition has_content (img : Raster rgba) : Prop :=
  exists x y, 0 <= x < fst (size img) /\ 0 <= y < snd (size img) /\
              is_content (getpixel img (x, y)) = true.

(** ** The command line ([cli.py]) *)

Module CLI.
Section WithShell.
Context {platform : Platform}.

(** [os.path.exists], which only the command line calls. *)
Variable os_path_exists : string -> World -> bool.



End WithShell.
End CLI.

(** [os.path.exists] on the small platform. *)
Definition Toy_exists (path : string) (w : Toy.Files) : bool :=
  match Toy.lookup path w with
  | Some _ => true
  | None => false
  end.

(** ** More samples *)

(** A sheet with marks near its top-left and bottom-right corners. *)
Definition marks : Raster rgba :=
  sheet (100, 100) [(3, 7); (5, 7); (2, 9); (97, 95); (90, 95); (99, 90)].

(** A single half-transparent pixel. *)
Definition tinted : Raster rgba :=
  mkRaster (1, 1) (fun _ => (10, 20, 30, 128)).



(** ** The processor with its printing and the library's size limits

    The definitions above follow the pixels and the files: they leave out
    what the processor prints and the two size limits of the imaging
    library.  The definitions of this part add both.  [Printing.process_image]
    and [Printing.batch_process] take [verbose] as the source does, print
    where the source prints, and may end with an exception where the
    source lets one escape. *)

(** What the processor prints, one constructor per [print] call. *)
Inductive Line : Type :=
| Line_warning                                    (* line 92 *)
| Line_processing (name : string) (size : Z * Z)  (* line 128 *)
| Line_cropped (size : Z * Z)                     (* line 135 *)
| Line_resized (size : Z * Z)                     (* line 139 *)
| Line_saved (output_path : string)               (* line 150 *)
| Line_error (input_path : string) (e : Py.Exception)  (* line 155 *)
| Line_no_png (input_dir : string)                (* line 176 *)
| Line_found (n : nat)                            (* line 180 *)
| Line_target (width height : Z)                  (* line 181 *)
| Line_rule                                       (* lines 182, 200 *)
| Line_blank                                      (* line 197 *)
| Line_complete                                   (* line 201 *)
| Line_successful (n : nat)                       (* line 202 *)
| Line_failed (n : nat)                           (* line 203 *)
| Line_saved_to (output_dir : string).            (* line 204 *)

(** Standard output: [print] may raise (an encoding that cannot hold a
    name, a closed pipe), and what it wrote is part of the state. *)
Class Console {platform : Platform} : Type := {
  print : Line -> World -> World * option Py.Exception;
  os_path_basename : string -> string
}.

Module Limits.

(** [Image.MAX_IMAGE_PIXELS], and the check [Image.crop] makes on the size
    of its box: more than twice the limit is refused. *)
Definition MAX_IMAGE_PIXELS : Z := 89478485.

Definition decompression_bomb (size : Z * Z) : bool :=
  Z.max 1 (fst size) * Z.max 1 (snd size) >? 2 * MAX_IMAGE_PIXELS.

(** [Image.crop(box)] with its checks in their order: an inverted box
    first, then the size of the box. *)
Definition Image_crop (img : Image) (box : Z * Z * Z * Z)
    : Py.Exception + Image :=
  match crop img box with
  | inl e => inl e
  | inr cropped =>
      if decompression_bomb (Image_size cropped) then
        inl (Py.DecompressionBombError "Image size exceeds limit")
      else inr cropped
  end.

(** The target of a resize is handed to C as two 32-bit integers. *)
Definition INT_MAX : Z := 2147483647.

Definition fits_int (v : Z) : bool := (- INT_MAX - 1 <=? v) && (v <=? INT_MAX).

(** [Image.resize(size, resample)]: an image that already has the size is
    copied; a size that does not fit 32 bits raises OverflowError; then as
    [resize]. *)
Definition Image_resize (img : Image) (target : Z * Z)
    (resample : Resampling) : Py.Exception + Image :=
  if (fst (Image_size img) =? fst target)
     && (snd (Image_size img) =? snd target) then inr img
  else if negb (fits_int (fst target) && fits_int (snd target)) then
    inl (Py.OverflowError "Python int too large to convert to C int")
  else resize img target resample.

End Limits.

Module Printing.
Section WithConsole.
Context {platform : Platform} {console : Console}.

Definition say (line : Line) : Run.M unit := Run.effect (print line).

(** [if verbose: print(...)]. *)
Definition when_verbose (verbose : bool) (line : Line) : Run.M unit :=
  if verbose then say line else Run.ret tt.

(** [find_bracket_intersections] with the warning it prints (line 92)
    before it falls back from a rectangle that fails validation. *)
Definition find_bracket_intersections (self : t) (img : Image)
    : Run.M (Z * Z * Z * Z) :=
  let img := as_RGBA img in
  match top_left img, bottom_right img with
  | Some tl, Some br =>
      let rect :=
        reconcile (bracket_offset self) tl br
                  (top_right img) (bottom_left img) in
      if valid rect then Run.ret rect
      else
        _ <- say Line_warning ;;
        Run.ret (_find_content_bounds_fallback img)
  | _, _ => Run.ret (_find_content_bounds_fallback img)
  end.

(** The body of the [try] of [process_image], lines 126-151. *)
Definition process_image_body (self : t) (input_path output_path : string)
    (verbose : bool) : Run.M unit :=
  img <- Run.pure (Image_open input_path) ;;
  _ <- when_verbose verbose
         (Line_processing (os_path_basename input_path) (Image_size img)) ;;
  bounds <- find_bracket_intersections self img ;;
  cropped <- Run.pure (fun _ => Limits.Image_crop img (crop_box bounds)) ;;
  _ <- when_verbose verbose (Line_cropped (Image_size cropped)) ;;
  resized <- Run.pure
               (fun _ => Limits.Image_resize cropped (target_size self) LANCZOS) ;;
  _ <- when_verbose verbose (Line_resized (Image_size resized)) ;;
  _ <- Run.effect (os_makedirs (os_path_dirname output_path)) ;;
  _ <- Run.effect (Image_save (flatten resized) output_path) ;;
  when_verbose verbose (Line_saved output_path).

(** [process_image]: True after the body; in the handler, the message is
    printed when [verbose], and an exception of that print escapes. *)
Definition process_image (self : t) (input_path output_path : string)
    (verbose : bool) : Run.M bool :=
  fun w =>
    match process_image_body self input_path output_path verbose w with
    | (w', inr _) => (w', inr true)
    | (w', inl e) =>
        match when_verbose verbose (Line_error input_path e) w' with
        | (w'', inr _) => (w'', inr false)
        | (w'', inl e') => (w'', inl e')
        end
    end.

(** Lines 187-197: the loop; the blank line after each file is printed
    outside any [try]. *)
Fixpoint batch_loop (self : t) (input_dir output_dir : string)
    (verbose : bool) (png_files : list string) (successful failed : nat)
    : Run.M (nat * nat) :=
  match png_files with
  | [] => Run.ret (successful, failed)
  | png_file :: rest =>
      ok <- process_image self (os_path_join input_dir png_file)
              (os_path_join output_dir png_file) verbose ;;
      _ <- when_verbose verbose Line_blank ;;
      if ok : bool then
        batch_loop self input_dir output_dir verbose rest (S successful) failed
      else
        batch_loop self input_dir output_dir verbose rest successful (S failed)
  end.

Definition batch_process (self : t) (input_dir output_dir : string)
    (verbose : bool) : Run.M (nat * nat) :=
  _ <- Run.effect (os_makedirs output_dir) ;;
  names <- Run.pure (os_listdir input_dir) ;;
  let png_files := filter is_png names in
  match png_files with
  | [] =>
      _ <- when_verbose verbose (Line_no_png input_dir) ;;
      Run.ret (0%nat, 0%nat)
  | _ =>
      _ <- when_verbose verbose (Line_found (List.length png_files)) ;;
      _ <- when_verbose verbose
             (Line_target (fst (target_size self)) (snd (target_size self))) ;;
      _ <- when_verbose verbose Line_rule ;;
      counts <- batch_loop self input_dir output_dir verbose png_files 0 0 ;;
      _ <- when_verbose verbose Line_rule ;;
      _ <- when_verbose verbose Line_complete ;;
      _ <- when_verbose verbose (Line_successful (fst counts)) ;;
      _ <- when_verbose verbose (Line_failed (snd counts)) ;;
      _ <- when_verbose verbose (Line_saved_to output_dir) ;;
      Run.ret counts
  end.

End WithConsole.
End Printing.

(** ** A console for the small platform *)

(** A name all of whose bytes are ASCII. *)
Fixpoint is_ascii (s : string) : bool :=
  match s with
  | EmptyString => true
  | String c s' => Nat.ltb (nat_of_ascii c) 128 && is_ascii s'
  end.

(** The names a line carries. *)
Definition names_of (line : Line) : list string :=
  match line with
  | Line_processing name _ => [name]
  | Line_saved output_path => [output_path]
  | Line_error input_path _ => [input_path]
  | Line_no_png input_dir => [input_dir]
  | Line_saved_to output_dir => [output_dir]
  | _ => []
  end.

(** A standard output that encodes ASCII only: printing a line with any
    other byte in a name raises UnicodeEncodeError, a ValueError.  What is
    printed is not kept. *)
Definition ascii_print (line : Line) (w : Toy.Files)
    : Toy.Files * option Py.Exception :=
  if forallb is_ascii (names_of line) then (w, None)
  else (w, Some (Py.ValueError "UnicodeEncodeError"))%string.

(** The part of a path after its last slash. *)
Fixpoint basename (s : string) : string :=
  match s with
  | EmptyString => EmptyString
  | String c s' =>
      if Toy.has_slash (String c s') then basename s' else String c s'
  end.

Definition ascii_console : @Console Toy.platform :=
  @Build_Console Toy.platform ascii_print basename.

(** A name stdout cannot encode: e-acute in Latin-1, then ".png". *)
Definition accented_png : string := String (ascii_of_nat 233) ".png".

(** The sample directory with the undecodable file under that name. *)
Definition accented_shots : Toy.Files :=
  [ ("shots"%string, Toy.Directory);
    ("shots/a.png"%string, Toy.Png Toy.brackets_100);
    (Toy.join "shots" accented_png, Toy.Garbage);
    ("shots/c.png"%string, Toy.Png (sheet_RGB (60, 40) [(5, 5); (20, 30)])) ].

(** A raster with one transparent and one opaque pixel. *)
Definition two_pixels : Raster rgba :=
  mkRaster (2, 1) (fun p => if fst p =? 0 then (10, 20, 30, 0)
                            else (10, 20, 30, 255)).

(** The prints guarded by [verbose] do not raise: printing is off, or the
    console accepts every line. *)
Definition prints_go_through {platform : Platform} {console : Console}
    (verbose : bool) : Prop :=
  verbose = false \/ forall line w, snd (print line w) = None.

(** * Properties *)

(** ** Ranges *)

Lemma In_range (n x : Z) : In x (Py.range n) <-> 0 <= x < n.
Proof.
  unfold Py.range. rewrite in_map_iff. split.
  - intros [k [Hk Hin]]. apply in_seq in Hin. lia.
  - intros H. exists (Z.to_nat x). split; [lia|]. apply in_seq. lia.
Qed.

Lemma In_range_down (start stop x : Z) :
  In x (Py.range_down start stop) <-> stop < x <= start.
Proof.
  unfold Py.range_down. rewrite in_map_iff. split.
  - intros [k [Hk Hin]]. apply in_seq in Hin. lia.
  - intros H. exists (Z.to_nat (start - x)). split; [lia|]. apply in_seq. lia.
Qed.

Lemma length_range (n : Z) : List.length (Py.range n) = Z.to_nat n.
Proof. unfold Py.range. now rewrite length_map, length_seq. Qed.

Lemma length_range_down (start stop : Z) :
  List.length (Py.range_down start stop) = Z.to_nat (start - stop).
Proof. unfold Py.range_down. now rewrite length_map, length_seq. Qed.

(** The rows and columns of the four windows. *)
Lemma In_near_rows (height y : Z) :
  In y (near_rows height) <-> 0 <= y < Z.min 50 height.
Proof. apply In_range. Qed.

Lemma In_near_cols (width x : Z) :
  In x (near_cols width) <-> 0 <= x < Z.min 50 width.
Proof. apply In_range. Qed.

Lemma In_far_rows (height y : Z) :
  In y (far_rows height) <-> Z.max (height - 50) 0 < y <= height - 1.
Proof. apply In_range_down. Qed.

Lemma In_far_cols (width x : Z) :
  In x (far_cols width) <-> Z.max (width - 50) 0 < x <= width - 1.
Proof. apply In_range_down. Qed.

(** ** The corner searches *)

Lemma scan_row_Some img y xs p :
  scan_row img y xs = Some p ->
  snd p = y /\ In (fst p) xs /\ is_black (getpixel img p) = true.
Proof.
  induction xs as [|x xs IH]; simpl; [discriminate|].
  destruct (is_black (getpixel img (x, y))) eqn:E.
  - intros [= <-]. simpl. auto.
  - intros H. destruct (IH H) as (? & ? & ?). auto.
Qed.

Lemma scan_row_None img y xs :
  scan_row img y xs = None <->
  forall x, In x xs -> is_black (getpixel img (x, y)) = false.
Proof.
  induction xs as [|x xs IH]; simpl.
  - split; [intros _ ? []|reflexivity].
  - destruct (is_black (getpixel img (x, y))) eqn:E.
    + split; [discriminate|]. intros H. rewrite H in E by auto. discriminate.
    + rewrite IH. split.
      * intros H x' [<-|Hin]; auto.
      * intros H x' Hin. auto.
Qed.

Lemma scan_Some img ys xs p :
  scan img ys xs = Some p ->
  In (snd p) ys /\ In (fst p) xs /\ is_black (getpixel img p) = true.
Proof.
  induction ys as [|y ys IH]; simpl; [discriminate|].
  destruct (scan_row img y xs) as [q|] eqn:E.
  - intros [= <-]. apply scan_row_Some in E. destruct E as (? & ? & ?). auto.
  - intros H. destruct (IH H) as (? & ? & ?). auto.
Qed.

Lemma scan_None img ys xs :
  scan img ys xs = None <->
  forall x y, In x xs -> In y ys -> is_black (getpixel img (x, y)) = false.
Proof.
  induction ys as [|y ys IH]; simpl.
  - split; [intros _ ? ? ? []|reflexivity].
  - destruct (scan_row img y xs) as [q|] eqn:E.
    + split; [discriminate|]. intros H.
      apply scan_row_Some in E. destruct E as (Hy & Hx & Hb).
      destruct q as [qx qy]. simpl in *. subst qy.
      rewrite H in Hb by auto. discriminate.
    + rewrite IH. rewrite scan_row_None in E. split.
      * intros H x y' Hx [<-|Hy]; auto.
      * intros H x y' Hx Hy. auto.
Qed.


(** ** The content-bounds scan *)

Lemma In_visited width height x y :
  In (x, y) (visited width height) <-> 0 <= x < width /\ 0 <= y < height.
Proof.
  unfold visited. rewrite in_flat_map. split.
  - intros [y' [Hy Hin]]. apply in_map_iff in Hin.
    destruct Hin as [x' [[= <- <-] Hx]].
    apply In_range in Hy. apply In_range in Hx. lia.
  - intros [Hx Hy]. exists y. split; [now apply In_range|].
    apply in_map_iff. exists x. split; [reflexivity|now apply In_range].
Qed.

Lemma fallback_row_visit img width y acc :
  fallback_row img width acc y =
  fold_left (visit img) (map (fun x => (x, y)) (Py.range width)) acc.
Proof.
  unfold fallback_row. generalize (Py.range width) as xs. intros xs.
  revert acc. induction xs as [|x xs IH]; intros acc; simpl; [reflexivity|].
  apply IH.
Qed.

Lemma fallback_visited img :
  _find_content_bounds_fallback img =
  fold_left (visit img) (visited (fst (size img)) (snd (size img)))
            (fst (size img), snd (size img), 0, 0).
Proof.
  unfold _find_content_bounds_fallback, visited.
  destruct (size img) as [width height]. simpl.
  generalize (width, height, 0, 0) as acc.
  generalize (Py.range height) as ys.
  induction ys as [|y ys IH]; intros acc; simpl; [reflexivity|].
  rewrite fold_left_app, <- fallback_row_visit. apply IH.
Qed.

(** Every read of the fallback is inside the raster. *)
Lemma fallback_in_bounds (img : Raster rgba) p :
  In p (visited (fst (size img)) (snd (size img))) -> inside img p = true.
Proof.
  destruct p as [x y]. rewrite In_visited. unfold inside.
  destruct (size img) as [width height]. simpl. lia.
Qed.


Lemma attained_cons img q ps proj v :
  attained img ps proj v -> attained img (q :: ps) proj v.
Proof. intros (p & ? & ? & ?). exists p. simpl. auto. Qed.

Lemma fold_visit_spec img ps :
  forall l0 t0 r0 b0 l t r b,
    fold_left (visit img) ps (l0, t0, r0, b0) = (l, t, r, b) ->
    (l <= l0 /\ t <= t0 /\ r0 <= r /\ b0 <= b) /\
    (forall p, In p ps -> is_content (getpixel img p) = true ->
       l <= fst p <= r /\ t <= snd p <= b) /\
    (l = l0 \/ attained img ps fst l) /\
    (t = t0 \/ attained img ps snd t) /\
    (r = r0 \/ attained img ps fst r) /\
    (b = b0 \/ attained img ps snd b).
Proof.
  induction ps as [|[x y] ps IH]; intros l0 t0 r0 b0 l t r b; simpl.
  - intros [= <- <- <- <-]. repeat split; try lia; auto; intros ? [].
  - destruct (is_content (getpixel img (x, y))) eqn:E; intros H;
      apply IH in H; destruct H as (Hmono & Hall & Hl & Ht & Hr & Hb).
    + assert (Hhead : forall proj v, proj (x, y) = v ->
                attained img ((x, y) :: ps) proj v).
      { intros proj v Hv. exists (x, y). simpl. auto. }
      split; [lia|]. split.
      { intros p [<-|Hin] Hc; [simpl; lia|]. now apply Hall. }
      repeat split.
      * destruct Hl as [->|Hl]; [|right; now apply attained_cons].
        destruct (Z.min_spec l0 x) as [[_ ->]|[_ ->]]; [now left|].
        right. now apply Hhead.
      * destruct Ht as [->|Ht]; [|right; now apply attained_cons].
        destruct (Z.min_spec t0 y) as [[_ ->]|[_ ->]]; [now left|].
        right. now apply Hhead.
      * destruct Hr as [->|Hr]; [|right; now apply attained_cons].
        destruct (Z.max_spec r0 x) as [[_ ->]|[_ ->]]; [|now left].
        right. now apply Hhead.
      * destruct Hb as [->|Hb]; [|right; now apply attained_cons].
        destruct (Z.max_spec b0 y) as [[_ ->]|[_ ->]]; [|now left].
        right. now apply Hhead.
    + split; [lia|]. split.
      { intros p [<-|Hin] Hc; [congruence|]. now apply Hall. }
      repeat split.
      * destruct Hl as [->|Hl]; [now left|right; now apply attained_cons].
      * destruct Ht as [->|Ht]; [now left|right; now apply attained_cons].
      * destruct Hr as [->|Hr]; [now left|right; now apply attained_cons].
      * destruct Hb as [->|Hb]; [now left|right; now apply attained_cons].
Qed.

Lemma background_not_black (p : rgba) :
  is_content p = false -> is_black p = false.
Proof.
  destruct p as [[[r g] b] a]. unfold is_content, is_black.
  intros H. apply negb_false_iff in H.
  apply andb_prop in H. destruct H as [H _].
  apply andb_prop in H. destruct H as [H _].
  assert (E : (r =? 0) = false) by lia. rewrite E. reflexivity.
Qed.


(** The windows lie inside the raster, so every read of a corner search is
    inside it too. *)
Lemma scan_in_bounds (img : Raster rgba) x y :
  (In x (near_cols (fst (size img))) \/ In x (far_cols (fst (size img)))) ->
  (In y (near_rows (snd (size img))) \/ In y (far_rows (snd (size img)))) ->
  inside img (x, y) = true.
Proof.
  unfold inside. destruct (size img) as [width height]. simpl.
  rewrite In_near_cols, In_far_cols, In_near_rows, In_far_rows. lia.
Qed.



Lemma size_as_RGBA (img : Image) : size (as_RGBA img) = Image_size img.
Proof. destruct img as [[] r]; reflexivity. Qed.

(** C10: when some pixel inside the raster is content, the fallback scan
    returns (left, top, right, bottom) inside the raster, with
    0 <= left <= right <= width-1 and 0 <= top <= bottom <= height-1; every
    content pixel lies within these bounds and each bound is the coordinate
    of some content pixel, so the four are the componentwise minima and
    maxima over the content pixels. *)
Theorem fallback_bounds_are_content_extrema (img : Raster rgba)
    (width height : Z) :
  size img = (width, height) ->
  (exists x y, 0 <= x < width /\ 0 <= y < height /\
               is_content (getpixel img (x, y)) = true) ->
  exists left_ top right_ bottom,
    _find_content_bounds_fallback img = (left_, top, right_, bottom) /\
    (0 <= left_ <= right_ /\ right_ <= width - 1) /\
    (0 <= top <= bottom /\ bottom <= height - 1) /\
    (forall x y, 0 <= x < width -> 0 <= y < height ->
       is_content (getpixel img (x, y)) = true ->
       left_ <= x <= right_ /\ top <= y <= bottom) /\
    (exists y, 0 <= y < height /\ is_content (getpixel img (left_, y)) = true) /\
    (exists x, 0 <= x < width /\ is_content (getpixel img (x, top)) = true) /\
    (exists y, 0 <= y < height /\ is_content (getpixel img (right_, y)) = true) /\
    (exists x, 0 <= x < width /\ is_content (getpixel img (x, bottom)) = true).
Proof.
  intros Hsz (x0 & y0 & Hx0 & Hy0 & Hc0).
  rewrite fallback_visited, Hsz. simpl.
  destruct (fold_left (visit img) (visited width height) (width, height, 0, 0))
    as [[[l t0] r] b] eqn:E.
  apply fold_visit_spec in E. destruct E as (_ & Hall & Hl & Ht & Hr & Hb).
  assert (Hin0 : In (x0, y0) (visited width height)) by now apply In_visited.
  destruct (Hall _ Hin0 Hc0) as [Hxb Hyb]. simpl in Hxb, Hyb.
  assert (Hget : forall proj v, attained img (visited width height) proj v ->
            exists x y, (0 <= x < width /\ 0 <= y < height) /\
              is_content (getpixel img (x, y)) = true /\ proj (x, y) = v).
  { intros proj v ([x y] & Hin & Hc & Hv). apply In_visited in Hin. eauto. }
  assert (Al : exists y, (0 <= l < width /\ 0 <= y < height) /\
                 is_content (getpixel img (l, y)) = true).
  { destruct Hl as [->|Hl]; [lia|]. apply Hget in Hl.
    destruct Hl as (x & y & ? & ? & Hv). simpl in Hv. subst x. eauto. }
  assert (At : exists x, (0 <= x < width /\ 0 <= t0 < height) /\
                 is_content (getpixel img (x, t0)) = true).
  { destruct Ht as [->|Ht]; [lia|]. apply Hget in Ht.
    destruct Ht as (x & y & ? & ? & Hv). simpl in Hv. subst y. eauto. }
  assert (Ar : exists y, (0 <= r < width /\ 0 <= y < height) /\
                 is_content (getpixel img (r, y)) = true).
  { destruct Hr as [Hr0|Hr].
    - exists y0. assert (x0 = r) by lia. subst x0. split; [lia|assumption].
    - apply Hget in Hr. destruct Hr as (x & y & ? & ? & Hv).
      simpl in Hv. subst x. eauto. }
  assert (Ab : exists x, (0 <= x < width /\ 0 <= b < height) /\
                 is_content (getpixel img (x, b)) = true).
  { destruct Hb as [Hb0|Hb].
    - exists x0. assert (y0 = b) by lia. subst y0. split; [lia|assumption].
    - apply Hget in Hb. destruct Hb as (x & y & ? & ? & Hv).
      simpl in Hv. subst y. eauto. }
  destruct Al as (yl & Hly & Hlc), At as (xt & Htx & Htc),
           Ar as (yr & Hry & Hrc), Ab as (xb & Hbx & Hbc).
  exists l, t0, r, b. split; [reflexivity|].
  split; [lia|]. split; [lia|]. split.
  { intros x y Hx Hy Hc.
    apply (Hall (x, y)); [now apply In_visited|assumption]. }
  split; [exists yl; split; [lia|assumption]|].
  split; [exists xt; split; [lia|assumption]|].
  split; [exists yr; split; [lia|assumption]|].
  exists xb; split; [lia|assumption].
Qed.

(** ** The locator *)


Lemma reconcile_extends (offset : Z) (tl br : Z * Z) (tr bl : option (Z * Z))
    (left_ top right_ bottom : Z) :
  reconcile offset tl br tr bl = (left_, top, right_, bottom) ->
  left_ <= fst tl + offset /\ top <= snd tl + offset /\
  fst br - offset <= right_ /\ snd br - offset <= bottom.
Proof.
  unfold reconcile. destruct tr as [[trx try_]|], bl as [[blx bly]|];
    simpl; intros [= <- <- <- <-]; lia.
Qed.

(** C4: with a top-left and a bottom-right candidate, the rectangle starts
    as (topLeft.x + inset, topLeft.y + inset, bottomRight.x - inset,
    bottomRight.y - inset); a top-right candidate replaces right by
    max(right, topRight.x - inset) and top by min(top, topRight.y + inset);
    a bottom-left candidate replaces left by min(left, bottomLeft.x + inset)
    and bottom by max(bottom, bottomLeft.y - inset).  Each side only moves
    outwards from its initial value, and this rectangle is the one the
    locator returns when it passes validation. *)
Theorem reconciliation_is_extend_only (self : t) (img : Image)
    (tl br : Z * Z) :
  top_left (as_RGBA img) = Some tl ->
  bottom_right (as_RGBA img) = Some br ->
  let inset := bracket_offset self in
  let left0 := fst tl + inset in
  let top0 := snd tl + inset in
  let right0 := fst br - inset in
  let bottom0 := snd br - inset in
  let right1 := match top_right (as_RGBA img) with
                | Some tr => Z.max right0 (fst tr - inset)
                | None => right0
                end in
  let top1 := match top_right (as_RGBA img) with
              | Some tr => Z.min top0 (snd tr + inset)
              | None => top0
              end in
  let left1 := match bottom_left (as_RGBA img) with
               | Some bl => Z.min left0 (fst bl + inset)
               | None => left0
               end in
  let bottom1 := match bottom_left (as_RGBA img) with
                 | Some bl => Z.max bottom0 (snd bl - inset)
                 | None => bottom0
                 end in
  reconcile inset tl br (top_right (as_RGBA img)) (bottom_left (as_RGBA img))
    = (left1, top1, right1, bottom1) /\
  (left1 <= left0 /\ top1 <= top0 /\ right0 <= right1 /\ bottom0 <= bottom1) /\
  (right1 > left1 -> bottom1 > top1 ->
   find_bracket_intersections self img = (left1, top1, right1, bottom1)).
Proof.
  intros Htl Hbr inset left0 top0 right0 bottom0 right1 top1 left1 bottom1.
  assert (Hrec : reconcile inset tl br (top_right (as_RGBA img))
                   (bottom_left (as_RGBA img))
                 = (left1, top1, right1, bottom1)).
  { subst right1 top1 left1 bottom1 right0 top0 left0 bottom0.
    unfold reconcile.
    destruct (top_right (as_RGBA img)) as [[trx try_]|],
             (bottom_left (as_RGBA img)) as [[blx bly]|]; reflexivity. }
  split; [exact Hrec|]. split.
  - apply reconcile_extends in Hrec. exact Hrec.
  - intros Hw Hh. unfold find_bracket_intersections.
    rewrite Htl, Hbr. fold inset. rewrite Hrec. unfold valid.
    assert (E1 : (right1 >? left1) = true) by lia.
    assert (E2 : (bottom1 >? top1) = true) by lia.
    now rewrite E1, E2.
Qed.


Ltac window_bounds :=
  repeat match goal with
  | H : In _ (near_cols _) |- _ => apply In_near_cols in H
  | H : In _ (far_cols _) |- _ => apply In_far_cols in H
  | H : In _ (near_rows _) |- _ => apply In_near_rows in H
  | H : In _ (far_rows _) |- _ => apply In_far_rows in H
  | |- In _ (near_cols _) => apply In_near_cols
  | |- In _ (far_cols _) => apply In_far_cols
  | |- In _ (near_rows _) => apply In_near_rows
  | |- In _ (far_rows _) => apply In_far_rows
  end.


Lemma crop_as_RGBA (img cropped : Image) (left_ upper right_ lower : Z) :
  crop img (left_, upper, right_, lower) = inr cropped ->
  mode cropped = mode img /\
  Image_size cropped = (right_ - left_, lower - upper) /\
  forall x y, inside (as_RGBA img) (x + left_, y + upper) = true ->
    getpixel (as_RGBA cropped) (x, y)
    = getpixel (as_RGBA img) (x + left_, y + upper).
Proof.
  unfold crop. destruct (right_ <? left_); [discriminate|].
  destruct (lower <? upper); [discriminate|].
  intros [= <-]. split; [reflexivity|]. split; [reflexivity|].
  intros x y. destruct img as [[] r]; cbn; unfold inside; cbn;
    unfold Image_size; cbn; intros ->; reflexivity.
Qed.



(** C3: what the code does where the claim fails.  The windows anchored at
    the right and bottom edges stop one short: [range(height-1,
    max(height-50, 0), -1)] leaves out its stop value, so the far rows are
    height-1 down to max(height-50, 0) + 1 (49 rows of a tall image, and
    never row 0), and the far columns likewise.  On a 100x100 sheet with
    black pixels at (0,0) and (50,50) the bottom-right search finds nothing
    and the locator returns the content bounds (0, 0, 50, 50); on a single
    black pixel the top-left search finds (0,0) and the bottom-right search
    finds nothing. *)
Theorem far_windows_leave_out_the_stop_row_and_column :
  (forall height y,
     In y (far_rows height) <-> Z.max (height - 50) 0 + 1 <= y <= height - 1) /\
  (forall width x,
     In x (far_cols width) <-> Z.max (width - 50) 0 + 1 <= x <= width - 1) /\
  List.length (far_rows 100) = 49%nat /\
  ~ In 50 (far_rows 100) /\ ~ In 50 (far_cols 100) /\
  far_rows 1 = [] /\
  top_left (sheet (100, 100) [(0, 0); (50, 50)]) = Some (0, 0) /\
  bottom_right (sheet (100, 100) [(0, 0); (50, 50)]) = None /\
  find_bracket_intersections default (sheet_RGBA (100, 100) [(0, 0); (50, 50)])
    = (0, 0, 50, 50) /\
  top_left (sheet (1, 1) [(0, 0)]) = Some (0, 0) /\
  bottom_right (sheet (1, 1) [(0, 0)]) = None.
Proof.
  split; [intros; rewrite In_far_rows; lia|].
  split; [intros; rewrite In_far_cols; lia|].
  split; [reflexivity|].
  split; [rewrite In_far_rows; lia|].
  split; [rewrite In_far_cols; lia|].
  repeat split; vm_compute; reflexivity.
Qed.

(** The near windows, for comparison: min(50, dimension) rows and columns
    from 0. *)
Lemma near_window_side (dimension : Z) :
  List.length (near_rows dimension) = Z.to_nat (Z.min 50 dimension) /\
  List.length (near_cols dimension) = Z.to_nat (Z.min 50 dimension).
Proof. split; apply length_range. Qed.

Lemma far_window_side (dimension : Z) :
  List.length (far_rows dimension) = Z.to_nat (Z.min 49 (dimension - 1)) /\
  List.length (far_cols dimension) = Z.to_nat (Z.min 49 (dimension - 1)).
Proof.
  unfold far_rows, far_cols. rewrite length_range_down.
  split; f_equal; lia.
Qed.

(** The scenario of an inset of 500 on a 100x100 image with brackets near
    the corners: reconciliation gives right < left, and the locator returns
    the content bounds of the same image. *)
Example inset_500_falls_back :
  let self := mk (670, 366) 500 in
  reconcile 500 (1, 1) (98, 98) (Some (98, 1)) (Some (1, 98))
    = (501, 501, -402, -402) /\
  find_bracket_intersections self Toy.brackets_100 = (1, 1, 98, 98) /\
  _find_content_bounds_fallback (as_RGBA Toy.brackets_100) = (1, 1, 98, 98).
Proof. repeat split; vm_compute; reflexivity. Qed.

(** ** The pipeline of one image *)

Section Pipeline.
Context {platform : Platform}.

Lemma flatten_mode (resized : Image) :
  mode (flatten resized) = match mode resized with RGBA => RGB | m => m end.
Proof. destruct resized as [[] r]; reflexivity. Qed.

Lemma flatten_size (resized : Image) :
  Image_size (flatten resized) = Image_size resized.
Proof. destruct resized as [[] r]; reflexivity. Qed.

Lemma resize_inr (img resized : Image) (target : Z * Z) (f : Resampling) :
  resize img target f = inr resized ->
  mode resized = mode img /\ Image_size resized = target /\
  1 <= fst target /\ 1 <= snd target.
Proof.
  unfold resize.
  destruct ((fst target <? 1) || (snd target <? 1)) eqn:E; [discriminate|].
  intros [= <-]. apply orb_false_elim in E. simpl.
  repeat split; lia.
Qed.

Lemma crop_inr (img cropped : Image) (box : Z * Z * Z * Z) :
  crop img box = inr cropped -> mode cropped = mode img.
Proof.
  destruct box as [[[l u] r] d]. intros H.
  now apply crop_as_RGBA in H.
Qed.

(** What a successful run of the three steps went through. *)
Lemma crop_resize_flatten_inr (self : t) (img out : Image) :
  crop_resize_flatten self img = inr out ->
  exists cropped resized,
    crop img (crop_box (find_bracket_intersections self img)) = inr cropped /\
    resize cropped (target_size self) LANCZOS = inr resized /\
    out = flatten resized.
Proof.
  unfold crop_resize_flatten.
  destruct (crop img _) as [e|cropped] eqn:Ecrop; [discriminate|].
  destruct (resize cropped _ _) as [e|resized] eqn:Eresize; [discriminate|].
  intros [= <-]. exists cropped, resized. auto.
Qed.

(** [process_image] returns True exactly when every step of its body went
    through: decode, crop, resize, flatten, makedirs, save. *)
Lemma process_image_true (self : t) (input_path output_path : string)
    (w w' : World) :
  process_image self input_path output_path w = (w', true) <->
  exists img out w1,
    Image_open input_path w = inr img /\
    crop_resize_flatten self img = inr out /\
    os_makedirs (os_path_dirname output_path) w = (w1, None) /\
    Image_save out output_path w1 = (w', None).
Proof.
  unfold process_image, Run.try_bool, process_image_body, Run.bind, Run.pure,
    Run.effect.
  split.
  - destruct (Image_open input_path w) as [e|img] eqn:E1; [discriminate|].
    destruct (crop_resize_flatten self img) as [e|out] eqn:E2; [discriminate|].
    destruct (os_makedirs (os_path_dirname output_path) w) as [w1 [e|]] eqn:E3;
      [discriminate|].
    destruct (Image_save out output_path w1) as [w2 [e|]] eqn:E4;
      [discriminate|].
    intros [= <-]. exists img, out, w1. auto.
  - intros (img & out & w1 & -> & -> & -> & ->). reflexivity.
Qed.

(** An exception of the decoder or of one of the three steps is turned into
    False, and nothing was written. *)
Lemma process_image_open_error (self : t) (input_path output_path : string)
    (w : World) (e : Py.Exception) :
  Image_open input_path w = inl e ->
  process_image self input_path output_path w = (w, false).
Proof.
  intros H.
  unfold process_image, Run.try_bool, process_image_body, Run.bind, Run.pure.
  now rewrite H.
Qed.


(** C8: when [process_image] returns True, the image it saved has exactly
    the size [target_size], whatever the size of the input and whichever
    way the crop rectangle was found. *)
Theorem saved_image_has_target_size (self : t)
    (input_path output_path : string) (w w' : World) :
  process_image self input_path output_path w = (w', true) ->
  exists img out w1,
    Image_open input_path w = inr img /\
    crop_resize_flatten self img = inr out /\
    Image_save out output_path w1 = (w', None) /\
    Image_size out = target_size self.
Proof.
  intros H. apply process_image_true in H.
  destruct H as (img & out & w1 & Hopen & Hout & _ & Hsave).
  exists img, out, w1. repeat split; try assumption.
  apply crop_resize_flatten_inr in Hout.
  destruct Hout as (cropped & resized & _ & Hres & ->).
  rewrite flatten_size. now apply resize_inr in Hres.
Qed.


Lemma normalize_RGBA (img : Image) : mode img = RGBA -> normalize img = img.
Proof. destruct img as [[] r]; try discriminate. reflexivity. Qed.

Lemma as_RGBA_normalize (img : Image) : as_RGBA (normalize img) = as_RGBA img.
Proof. reflexivity. Qed.

(** C2, as the code has it: only the locator reads the RGBA conversion of
    the input (alpha 255 where the source has no alpha band); crop and
    resize work on the input in its own mode, and flatten changes the
    result only when that mode is RGBA.  The saved image is RGB for an RGBA
    input and keeps the mode of any other input; for an RGBA input the
    pipeline is the one that normalises first. *)
Theorem pipeline_keeps_input_mode (self : t) (img out : Image) :
  crop_resize_flatten self img = inr out ->
  find_bracket_intersections self img
    = find_bracket_intersections self (normalize img) /\
  (mode img = RGB \/ mode img = L ->
   forall xy, snd (getpixel (as_RGBA img) xy) = 255) /\
  (exists cropped resized,
     crop img (crop_box (find_bracket_intersections self img)) = inr cropped /\
     mode cropped = mode img /\
     resize cropped (target_size self) LANCZOS = inr resized /\
     mode resized = mode img /\
     out = flatten resized) /\
  mode out = match mode img with RGBA => RGB | m => m end /\
  (mode img = RGBA -> process_normalized self img = inr out).
Proof.
  intros H. split; [reflexivity|]. split.
  { intros Hm xy. destruct img as [[] r]; simpl in *;
      try (destruct Hm; discriminate).
    - destruct (getpixel r xy) as [[? ?] ?]. reflexivity.
    - reflexivity. }
  pose proof (crop_resize_flatten_inr _ _ _ H)
    as (cropped & resized & Hc & Hr & ->).
  pose proof (crop_inr _ _ _ Hc) as Hmc.
  pose proof (resize_inr _ _ _ _ Hr) as (Hmr & _).
  split.
  { exists cropped, resized. repeat split; auto. congruence. }
  split.
  { rewrite flatten_mode, Hmr, Hmc. reflexivity. }
  intros Hm. unfold process_normalized. now rewrite normalize_RGBA.
Qed.

(** The library's division by 255 is exact on multiples of 255 below
    256 * 255. *)
Lemma DIV255_exact (v : Z) : octet v -> DIV255 (v * 255) = v.
Proof.
  unfold octet, DIV255. intros Hv. cbv zeta.
  rewrite !Z.shiftr_div_pow2 by lia. change (2 ^ 8) with 256.
  Z.div_mod_to_equations. lia.
Qed.

Lemma BLEND8_transparent (in1 in2 : Z) : octet in1 -> BLEND8 0 in1 in2 = in1.
Proof.
  intros H. unfold BLEND8.
  replace (in1 * (255 - 0) + in2 * 0) with (in1 * 255) by lia.
  now apply DIV255_exact.
Qed.

Lemma BLEND8_opaque (in1 in2 : Z) : octet in2 -> BLEND8 255 in1 in2 = in2.
Proof.
  intros H. unfold BLEND8.
  replace (in1 * (255 - 255) + in2 * 255) with (in2 * 255) by lia.
  now apply DIV255_exact.
Qed.

(** C9, as the code has it: a resized image of mode RGBA is replaced by an
    RGB image of the same size, its pixels blended over white under their
    own alpha; every pixel with alpha 0 becomes (255, 255, 255) and every
    pixel with alpha 255 keeps its red, green and blue.  A resized image
    of any other mode, with an alpha band or without, is kept as it is. *)
Theorem flatten_RGBA_over_white (resized : Image) :
  (forall r : Raster rgba, resized = mkImage RGBA r ->
   exists flat : Raster rgb,
     flatten resized = mkImage RGB flat /\
     size flat = size r /\
     (forall x y red green blue,
        getpixel r (x, y) = (red, green, blue, 0) ->
        getpixel flat (x, y) = (255, 255, 255)) /\
     (forall x y red green blue,
        getpixel r (x, y) = (red, green, blue, 255) ->
        octet red -> octet green -> octet blue ->
        getpixel flat (x, y) = (red, green, blue))) /\
  (mode resized <> RGBA -> flatten resized = resized).
Proof.
  split.
  - intros r ->.
    exists (paste (new_RGB (size r) (255, 255, 255)) r (alpha_band r)).
    split; [reflexivity|]. split; [reflexivity|].
    assert (Hwhite : octet 255) by (unfold octet; lia).
    split; intros x y red green blue Hpx;
      cbn [paste getpixel new_RGB alpha_band]; rewrite Hpx.
    + now rewrite !BLEND8_transparent.
    + intros Hr Hg Hb. now rewrite !BLEND8_opaque.
  - destruct resized as [[] r]; intros Hm; try reflexivity.
    now contradiction Hm.
Qed.

End Pipeline.

(** ** The batch *)

Lemma count_total (outcomes : list bool) :
  (count outcomes true + count outcomes false = List.length outcomes)%nat.
Proof.
  unfold count. induction outcomes as [|[] bs IH]; simpl; lia.
Qed.

Section Batch.
Context {platform : Platform}.

Lemma batch_outcomes_length (self : t) (input_dir output_dir : string)
    (png_files : list string) (w : World) :
  List.length (batch_outcomes self input_dir output_dir png_files w)
  = List.length png_files.
Proof.
  revert w. induction png_files as [|f rest IH]; intros w; simpl;
    [reflexivity|].
  destruct (process_image self _ _ w) as [w' ok]. simpl. now rewrite IH.
Qed.

(** The loop adds the number of True outcomes to the first counter and the
    number of False outcomes to the second; it always reaches the end of
    the list. *)
Lemma batch_loop_counts (self : t) (input_dir output_dir : string)
    (png_files : list string) :
  forall (successful failed : nat) (w : World),
    snd (batch_loop self input_dir output_dir png_files successful failed w)
    = ((successful
        + count (batch_outcomes self input_dir output_dir png_files w) true)%nat,
       (failed
        + count (batch_outcomes self input_dir output_dir png_files w) false)%nat).
Proof.
  unfold count.
  induction png_files as [|f rest IH]; intros successful failed w; simpl.
  - f_equal; lia.
  - destruct (process_image self _ _ w) as [w' [|]]; rewrite IH; simpl;
      f_equal; lia.
Qed.

(** The batch without its printing: once the output directory is made and
    the input directory listed, it returns a pair: every name ending in
    .png (in any letter case) gets one Boolean outcome, the pair counts
    the True and the False outcomes, and the two counts add up to the
    number of such names.  On the sample directory with three PNG files,
    one undecodable, the pair is (2, 1). *)
Theorem batch_counts_every_png (self : t) (input_dir output_dir : string)
    (w w1 : World) (names : list string) :
  os_makedirs output_dir w = (w1, None) ->
  os_listdir input_dir w1 = inr names ->
  let png_files := filter is_png names in
  let outcomes := batch_outcomes self input_dir output_dir png_files w1 in
  (exists w',
     batch_process self input_dir output_dir w
     = (w', inr (count outcomes true, count outcomes false))) /\
  List.length outcomes = List.length png_files /\
  (count outcomes true + count outcomes false = List.length png_files)%nat /\
  snd (batch_process (platform := Toy.platform) default
         "shots" "processed" Toy.shots) = inr (2%nat, 1%nat).
Proof.
  intros Hmk Hls png_files outcomes.
  assert (Hlen : List.length outcomes = List.length png_files)
    by apply batch_outcomes_length.
  split; [|split; [exact Hlen|split]].
  - unfold batch_process, Run.bind, Run.effect, Run.pure, Run.ret.
    rewrite Hmk, Hls. fold png_files. clear Hlen. subst outcomes.
    clearbody png_files.
    pose proof (batch_loop_counts self input_dir output_dir png_files
                  0 0 w1) as Hcounts.
    destruct png_files as [|f rest]; [exists w1; reflexivity|].
    destruct (batch_loop self input_dir output_dir (f :: rest) 0 0 w1)
      as [w' counts].
    cbn [snd] in Hcounts. subst counts. exists w'. reflexivity.
  - rewrite <- Hlen. apply count_total.
  - vm_compute. reflexivity.
Qed.

End Batch.

(** ** Runs on the sample images and the sample directory *)

Lemma fallback_bounds_are_content_extrema_witness :
  exists left_ top right_ bottom,
    _find_content_bounds_fallback (sheet (3, 2) [(1, 0); (2, 1)])
    = (left_, top, right_, bottom) /\
    (0 <= left_ <= right_ /\ right_ <= 3 - 1) /\
    (0 <= top <= bottom /\ bottom <= 2 - 1) /\
    (forall x y, 0 <= x < 3 -> 0 <= y < 2 ->
       is_content (getpixel (sheet (3, 2) [(1, 0); (2, 1)]) (x, y)) = true ->
       left_ <= x <= right_ /\ top <= y <= bottom) /\
    (exists y, 0 <= y < 2 /\
       is_content (getpixel (sheet (3, 2) [(1, 0); (2, 1)]) (left_, y)) = true) /\
    (exists x, 0 <= x < 3 /\
       is_content (getpixel (sheet (3, 2) [(1, 0); (2, 1)]) (x, top)) = true) /\
    (exists y, 0 <= y < 2 /\
       is_content (getpixel (sheet (3, 2) [(1, 0); (2, 1)]) (right_, y)) = true) /\
    (exists x, 0 <= x < 3 /\
       is_content (getpixel (sheet (3, 2) [(1, 0); (2, 1)]) (x, bottom)) = true).
Proof.
  apply (fallback_bounds_are_content_extrema
           (sheet (3, 2) [(1, 0); (2, 1)]) 3 2).
  - reflexivity.
  - exists 1, 0. repeat split; lia.
Defined.

Lemma reconciliation_is_extend_only_witness :
  find_bracket_intersections default Toy.brackets_100 = (3, 3, 96, 96).
Proof.
  apply (reconciliation_is_extend_only default Toy.brackets_100
           (1, 1) (98, 98)).
  - reflexivity.
  - reflexivity.
  - reflexivity.
  - reflexivity.
Defined.

Lemma saved_image_has_target_size_witness :
  exists img out w1,
    Toy.open "shots/a.png" Toy.shots_ready = inr img /\
    crop_resize_flatten (platform := Toy.platform) default img = inr out /\
    Toy.save out "processed/a.png" w1
    = (fst (process_image (platform := Toy.platform) default
              "shots/a.png" "processed/a.png" Toy.shots_ready), None) /\
    Image_size out = (670, 366).
Proof.
  apply (saved_image_has_target_size (platform := Toy.platform) default
           "shots/a.png" "processed/a.png" Toy.shots_ready).
  reflexivity.
Defined.

Lemma batch_counts_every_png_witness :
  snd (batch_process (platform := Toy.platform) default
         "shots" "processed" Toy.shots) = inr (2%nat, 1%nat).
Proof.
  apply (batch_counts_every_png (platform := Toy.platform) default
           "shots" "processed" Toy.shots Toy.shots_ready
           ["a.png"; "b.PNG"; "notes.txt"; "c.png"]%string).
  - reflexivity.
  - reflexivity.
Defined.

Lemma flatten_RGBA_over_white_witness :
  (exists flat : Raster rgb,
     flatten (mkImage RGBA two_pixels) = mkImage RGB flat /\
     size flat = (2, 1) /\
     getpixel flat (0, 0) = (255, 255, 255) /\
     getpixel flat (1, 0) = (10, 20, 30)) /\
  flatten Toy.veil = Toy.veil.
Proof.
  destruct (flatten_RGBA_over_white (mkImage RGBA two_pixels)) as [Hrgba _].
  destruct (flatten_RGBA_over_white Toy.veil) as [_ Hother].
  split.
  - destruct (Hrgba two_pixels eq_refl) as (flat & Hf & Hs & H0 & H255).
    exists flat. split; [exact Hf|]. split; [exact Hs|]. split.
    + apply (H0 0 0 10 20 30). reflexivity.
    + apply (H255 1 0 10 20 30); [reflexivity| | |]; unfold octet; lia.
  - apply Hother. discriminate.
Defined.


Lemma pipeline_keeps_input_mode_witness :
  mode Toy.grey_out = L.
Proof.
  apply (pipeline_keeps_input_mode (platform := Toy.platform) default
           Toy.grey Toy.grey_out).
  reflexivity.
Defined.


(** C2 fails on a greyscale input: the saved image is greyscale, where the
    pipeline that normalises first would save an RGB image; and on a
    greyscale input with an alpha band the saved image keeps the band, with
    its transparent pixels still transparent. *)
Lemma grey_input_is_not_normalized :
  result_mode (crop_resize_flatten (platform := Toy.platform) default Toy.grey)
    = Some L /\
  result_mode (process_normalized (platform := Toy.platform) default Toy.grey)
    = Some RGB /\
  crop_resize_flatten (platform := Toy.platform) default Toy.grey
    <> process_normalized (platform := Toy.platform) default Toy.grey /\
  result_mode (crop_resize_flatten (platform := Toy.platform)
                 (mk (4, 4) 2) Toy.veil) = Some LA.
Proof.
  assert (H1 : result_mode
                 (crop_resize_flatten (platform := Toy.platform) default Toy.grey)
               = Some L) by reflexivity.
  assert (H2 : result_mode
                 (process_normalized (platform := Toy.platform) default Toy.grey)
               = Some RGB) by reflexivity.
  split; [exact H1|]. split; [exact H2|]. split.
  - intros Heq. rewrite Heq, H2 in H1. discriminate H1.
  - reflexivity.
Qed.

(** C9 fails on a resized image of mode LA: it carries an alpha band, and
    flatten returns it as it is, mode LA, its transparent pixel (40, 0)
    neither white nor opaque. *)
Lemma flatten_keeps_LA_alpha :
  flatten Toy.veil = Toy.veil /\
  mode (flatten Toy.veil) = LA /\
  getpixel (as_RGBA (flatten Toy.veil)) (0, 0) = (40, 40, 40, 0) /\
  (exists out,
     crop_resize_flatten (platform := Toy.platform) (mk (4, 4) 2) Toy.veil
       = inr out /\
     mode out = LA /\
     getpixel (as_RGBA out) (0, 0) = (40, 40, 40, 0)).
Proof.
  split; [reflexivity|]. split; [reflexivity|]. split; [reflexivity|].
  eexists. split; [reflexivity|]. split; reflexivity.
Qed.

(** * Further properties of the code *)

(** ** The order of the corner searches *)

Lemma range_sorted (n : Z) : StronglySorted Z.lt (Py.range n).
Proof.
  unfold Py.range. generalize (Z.to_nat n) as k. generalize 0%nat as a.
  intros a k. revert a. induction k as [|k IH]; intros a; simpl.
  - constructor.
  - constructor; [apply IH|]. apply Forall_forall. intros v Hv.
    apply in_map_iff in Hv. destruct Hv as [j [<- Hj]].
    apply in_seq in Hj. lia.
Qed.

Lemma range_down_sorted (start stop : Z) :
  StronglySorted Z.gt (Py.range_down start stop).
Proof.
  unfold Py.range_down. generalize (Z.to_nat (start - stop)) as k.
  generalize 0%nat as a.
  intros a k. revert a. induction k as [|k IH]; intros a; simpl.
  - constructor.
  - constructor; [apply IH|]. apply Forall_forall. intros v Hv.
    apply in_map_iff in Hv. destruct Hv as [j [<- Hj]].
    apply in_seq in Hj. lia.
Qed.

(** In a sorted list, an element other than the head comes after it. *)
Lemma sorted_head (R : Z -> Z -> Prop) (v : Z) (l : list Z) (u : Z) :
  StronglySorted R (v :: l) -> In u (v :: l) -> u = v \/ R v u.
Proof.
  intros Hs [<-|Hin]; [now left|]. right.
  apply StronglySorted_inv in Hs. destruct Hs as [_ Hall].
  rewrite Forall_forall in Hall. now apply Hall.
Qed.

Lemma scan_row_first (R : Z -> Z -> Prop) img y xs x :
  StronglySorted R xs ->
  scan_row img y xs = Some (x, y) ->
  forall x', In x' xs -> is_black (getpixel img (x', y)) = true ->
    x' = x \/ R x x'.
Proof.
  induction xs as [|v xs IH]; simpl; [discriminate|].
  intros Hs. destruct (is_black (getpixel img (v, y))) eqn:E.
  - intros [= <-] x' Hin _. now apply (sorted_head R v xs).
  - intros H x' [<-|Hin] Hb; [congruence|].
    apply StronglySorted_inv in Hs. destruct Hs as [Hs _].
    now apply IH.
Qed.

(** The point a search returns is the first black pixel of its window in
    the order of the two loops: rows in the order of [ys], and within a row
    columns in the order of [xs]. *)
Lemma scan_first (Ry Rx : Z -> Z -> Prop) img ys xs x y :
  StronglySorted Ry ys -> StronglySorted Rx xs ->
  scan img ys xs = Some (x, y) ->
  forall x' y', In x' xs -> In y' ys ->
    is_black (getpixel img (x', y')) = true ->
    Ry y y' \/ (y' = y /\ (x' = x \/ Rx x x')).
Proof.
  intros Hys Hxs. induction ys as [|v ys IH]; simpl; [discriminate|].
  destruct (scan_row img v xs) as [q|] eqn:E.
  - intros [= ->] x' y' Hx Hy Hb.
    pose proof (scan_row_Some _ _ _ _ E) as (Hq & _ & _). simpl in Hq.
    subst v. destruct (sorted_head Ry y ys y' Hys Hy) as [->|Hlt].
    + right. split; [reflexivity|].
      now apply (scan_row_first Rx img y xs x Hxs E).
    + now left.
  - intros H x' y' Hx [<-|Hy] Hb.
    + rewrite scan_row_None in E. rewrite E in Hb by assumption. discriminate.
    + pose proof (StronglySorted_inv Hys) as [Hys' Hall].
      destruct (IH Hys' H x' y' Hx Hy Hb) as [Hlt|Heq]; [now left|now right].
Qed.

(** X1 ([find_bracket_intersections], lines 35-43): the top-left candidate
    is a black pixel of the window [0, min(50, width)) x [0, min(50,
    height)), and it is the first one in reading order: no black pixel of
    the window lies in a row above it, nor to its left in its own row. *)
Theorem top_left_is_first_in_reading_order (img : Raster rgba)
    (width height x y : Z) :
  size img = (width, height) ->
  top_left img = Some (x, y) ->
  is_black (getpixel img (x, y)) = true /\
  (0 <= x < Z.min 50 width /\ 0 <= y < Z.min 50 height) /\
  forall x' y', 0 <= x' < Z.min 50 width -> 0 <= y' < Z.min 50 height ->
    is_black (getpixel img (x', y')) = true ->
    y < y' \/ (y' = y /\ x <= x').
Proof.
  unfold top_left. intros -> H.
  pose proof (scan_Some _ _ _ _ H) as (Hy & Hx & Hb). simpl in Hy, Hx.
  window_bounds. split; [exact Hb|]. split; [lia|].
  intros x' y' Hx' Hy' Hb'.
  destruct (scan_first Z.lt Z.lt img _ _ x y (range_sorted _) (range_sorted _)
              H x' y') as [Hlt|[-> Hle]]; auto.
  - now apply In_near_cols.
  - now apply In_near_rows.
  - right. split; [reflexivity|lia].
Qed.

(** X2 (lines 45-53): the bottom-right candidate is a black pixel with
    max(width-50, 0) < x <= width-1 and max(height-50, 0) < y <= height-1,
    and it is the last one of that window in reading order. *)
Theorem bottom_right_is_last_in_reading_order (img : Raster rgba)
    (width height x y : Z) :
  size img = (width, height) ->
  bottom_right img = Some (x, y) ->
  is_black (getpixel img (x, y)) = true /\
  (Z.max (width - 50) 0 < x <= width - 1 /\
   Z.max (height - 50) 0 < y <= height - 1) /\
  forall x' y', Z.max (width - 50) 0 < x' <= width - 1 ->
    Z.max (height - 50) 0 < y' <= height - 1 ->
    is_black (getpixel img (x', y')) = true ->
    y' < y \/ (y' = y /\ x' <= x).
Proof.
  unfold bottom_right. intros -> H.
  pose proof (scan_Some _ _ _ _ H) as (Hy & Hx & Hb). simpl in Hy, Hx.
  window_bounds. split; [exact Hb|]. split; [lia|].
  intros x' y' Hx' Hy' Hb'.
  destruct (scan_first Z.gt Z.gt img _ _ x y
              (range_down_sorted _ _) (range_down_sorted _ _)
              H x' y') as [Hlt|[-> Hle]]; auto.
  - now apply In_far_cols.
  - now apply In_far_rows.
  - left. lia.
  - right. split; [reflexivity|lia].
Qed.

(** X3 (lines 55-73): the top-right candidate is the black pixel of its
    window in the highest row and, within that row, furthest right; the
    bottom-left candidate is the one in the lowest row and, within that
    row, furthest left. *)
Theorem side_corners_scan_order (img : Raster rgba) (width height : Z) :
  size img = (width, height) ->
  (forall x y, top_right img = Some (x, y) ->
     is_black (getpixel img (x, y)) = true /\
     (Z.max (width - 50) 0 < x <= width - 1 /\ 0 <= y < Z.min 50 height) /\
     forall x' y', Z.max (width - 50) 0 < x' <= width - 1 ->
       0 <= y' < Z.min 50 height ->
       is_black (getpixel img (x', y')) = true ->
       y < y' \/ (y' = y /\ x' <= x)) /\
  (forall x y, bottom_left img = Some (x, y) ->
     is_black (getpixel img (x, y)) = true /\
     (0 <= x < Z.min 50 width /\ Z.max (height - 50) 0 < y <= height - 1) /\
     forall x' y', 0 <= x' < Z.min 50 width ->
       Z.max (height - 50) 0 < y' <= height - 1 ->
       is_black (getpixel img (x', y')) = true ->
       y' < y \/ (y' = y /\ x <= x')).
Proof.
  unfold top_right, bottom_left. intros ->. split; intros x y H;
    pose proof (scan_Some _ _ _ _ H) as (Hy & Hx & Hb); simpl in Hy, Hx;
    window_bounds; (split; [exact Hb|]); (split; [lia|]);
    intros x' y' Hx' Hy' Hb'.
  - destruct (scan_first Z.lt Z.gt img _ _ x y
                (range_sorted _) (range_down_sorted _ _)
                H x' y') as [Hlt|[-> Hle]]; auto.
    + now apply In_far_cols.
    + now apply In_near_rows.
    + right. split; [reflexivity|lia].
  - destruct (scan_first Z.gt Z.lt img _ _ x y
                (range_down_sorted _ _) (range_sorted _)
                H x' y') as [Hlt|[-> Hle]]; auto.
    + now apply In_near_cols.
    + now apply In_far_rows.
    + left. lia.
    + right. split; [reflexivity|lia].
Qed.

(** X4 (lines 35-73): a corner search yields no candidate exactly when its
    window holds no pure-black pixel. *)
Theorem corner_search_None_iff (img : Raster rgba) :
  let width := fst (size img) in
  let height := snd (size img) in
  (top_left img = None <->
   forall x y, 0 <= x < Z.min 50 width -> 0 <= y < Z.min 50 height ->
     is_black (getpixel img (x, y)) = false) /\
  (bottom_right img = None <->
   forall x y, Z.max (width - 50) 0 < x <= width - 1 ->
     Z.max (height - 50) 0 < y <= height - 1 ->
     is_black (getpixel img (x, y)) = false) /\
  (top_right img = None <->
   forall x y, Z.max (width - 50) 0 < x <= width - 1 ->
     0 <= y < Z.min 50 height ->
     is_black (getpixel img (x, y)) = false) /\
  (bottom_left img = None <->
   forall x y, 0 <= x < Z.min 50 width ->
     Z.max (height - 50) 0 < y <= height - 1 ->
     is_black (getpixel img (x, y)) = false).
Proof.
  unfold top_left, bottom_right, top_right, bottom_left.
  destruct (size img) as [width height]. cbn [fst snd].
  repeat split; rewrite scan_None; intros H x y Hx Hy; apply H;
    window_bounds; assumption.
Qed.

(** ** What the locator reads *)

Lemma colour_decides (p q : rgba) :
  colour p = colour q ->
  is_black p = is_black q /\ is_content p = is_content q.
Proof.
  destruct p as [[[r g] b] a], q as [[[r' g'] b'] a']. simpl.
  intros [= -> -> ->]. split; reflexivity.
Qed.

Lemma scan_row_agree (a b : Raster rgba) y xs :
  (forall x, In x xs ->
     is_black (getpixel a (x, y)) = is_black (getpixel b (x, y))) ->
  scan_row a y xs = scan_row b y xs.
Proof.
  induction xs as [|x xs IH]; intros H; simpl; [reflexivity|].
  rewrite <- (H x) by now left.
  destruct (is_black (getpixel a (x, y))); [reflexivity|].
  apply IH. intros x' Hx'. apply H. now right.
Qed.

Lemma scan_agree (a b : Raster rgba) ys xs :
  (forall x y, In x xs -> In y ys ->
     is_black (getpixel a (x, y)) = is_black (getpixel b (x, y))) ->
  scan a ys xs = scan b ys xs.
Proof.
  induction ys as [|y ys IH]; intros H; simpl; [reflexivity|].
  rewrite (scan_row_agree a b y xs) by (intros; apply H; simpl; auto).
  destruct (scan_row b y xs); [reflexivity|].
  apply IH. intros x y' Hx Hy. apply H; simpl; auto.
Qed.

Lemma fold_visit_agree (a b : Raster rgba) ps acc :
  (forall p, In p ps ->
     is_content (getpixel a p) = is_content (getpixel b p)) ->
  fold_left (visit a) ps acc = fold_left (visit b) ps acc.
Proof.
  revert acc. induction ps as [|[x y] ps IH]; intros acc H; simpl;
    [reflexivity|].
  assert (Hv : visit a acc (x, y) = visit b acc (x, y)).
  { unfold visit, fallback_step. simpl. destruct acc as [[[l t0] r] d].
    now rewrite (H (x, y)) by now left. }
  rewrite Hv. apply IH. intros p Hp. apply H. now right.
Qed.

(** Two rasters of one size with the same colours inside. *)
Lemma same_colours_search (a b : Raster rgba) :
  size a = size b ->
  (forall x y, inside a (x, y) = true ->
     colour (getpixel a (x, y)) = colour (getpixel b (x, y))) ->
  top_left a = top_left b /\ bottom_right a = bottom_right b /\
  top_right a = top_right b /\ bottom_left a = bottom_left b /\
  _find_content_bounds_fallback a = _find_content_bounds_fallback b.
Proof.
  intros Hsz Hcol.
  assert (Hin : forall x y,
            (In x (near_cols (fst (size a))) \/ In x (far_cols (fst (size a)))) ->
            (In y (near_rows (snd (size a))) \/ In y (far_rows (snd (size a)))) ->
            is_black (getpixel a (x, y)) = is_black (getpixel b (x, y))).
  { intros x y Hx Hy. apply colour_decides, Hcol.
    now apply scan_in_bounds. }
  assert (Hfb : _find_content_bounds_fallback a
                = _find_content_bounds_fallback b).
  { rewrite !fallback_visited, <- Hsz. apply fold_visit_agree.
    intros [x y] Hp. apply colour_decides, Hcol.
    now apply fallback_in_bounds. }
  unfold top_left, bottom_right, top_right, bottom_left.
  rewrite <- Hsz. destruct (size a) as [width height]. simpl in Hin.
  repeat split; try exact Hfb; apply scan_agree; intros x y Hx Hy;
    apply Hin; auto.
Qed.

(** X5 ([find_bracket_intersections] and the fallback): the rectangle
    depends only on the size of the image and on the red, green and blue
    values of the pixels inside it.  Alpha is never looked at, no pixel
    outside the image is read, and an image without an alpha band gives
    the rectangle of any RGBA image with the same colours. *)
Theorem locator_reads_only_colours_inside (self : t) (img1 img2 : Image) :
  Image_size img1 = Image_size img2 ->
  (forall x y, 0 <= x < fst (Image_size img1) ->
     0 <= y < snd (Image_size img1) ->
     colour (getpixel (as_RGBA img1) (x, y))
     = colour (getpixel (as_RGBA img2) (x, y))) ->
  find_bracket_intersections self img1 = find_bracket_intersections self img2.
Proof.
  intros Hsz Hcol.
  destruct (same_colours_search (as_RGBA img1) (as_RGBA img2))
    as (Htl & Hbr & Htr & Hbl & Hfb).
  - now rewrite !size_as_RGBA.
  - intros x y Hin. apply Hcol; unfold inside in Hin;
      rewrite size_as_RGBA in Hin;
      destruct (Image_size img1) as [width height]; simpl; lia.
  - unfold find_bracket_intersections.
    now rewrite Htl, Hbr, Htr, Hbl, Hfb.
Qed.

(** X6 (lines 45-53, 75, 95): an image at most one pixel wide or at most
    one pixel high never takes the bracket path, whatever its pixels: the
    bottom-right search has an empty window, and the locator returns the
    content bounds. *)
Theorem thin_image_uses_fallback (self : t) (img : Image) :
  fst (Image_size img) <= 1 \/ snd (Image_size img) <= 1 ->
  bottom_right (as_RGBA img) = None /\
  find_bracket_intersections self img
  = _find_content_bounds_fallback (as_RGBA img).
Proof.
  intros Hthin.
  assert (Hbr : bottom_right (as_RGBA img) = None).
  { unfold bottom_right. rewrite size_as_RGBA.
    destruct (Image_size img) as [width height]. simpl in Hthin.
    apply scan_None. intros x y Hx Hy. window_bounds. lia. }
  split; [exact Hbr|].
  unfold find_bracket_intersections. rewrite Hbr.
  now destruct (top_left (as_RGBA img)).
Qed.

(** ** The rectangle and the crop *)

(** The content bounds of a raster with content: inside the raster, around
    every content pixel, and touched by one on each side. *)
Lemma fallback_extrema (img : Raster rgba) (l t0 r b : Z) :
  has_content img ->
  _find_content_bounds_fallback img = (l, t0, r, b) ->
  (0 <= l <= r /\ r <= fst (size img) - 1) /\
  (0 <= t0 <= b /\ b <= snd (size img) - 1) /\
  (forall x y, inside img (x, y) = true ->
     is_content (getpixel img (x, y)) = true ->
     l <= x <= r /\ t0 <= y <= b) /\
  (exists y, t0 <= y <= b /\ is_content (getpixel img (l, y)) = true) /\
  (exists x, l <= x <= r /\ is_content (getpixel img (x, t0)) = true) /\
  (exists y, t0 <= y <= b /\ is_content (getpixel img (r, y)) = true) /\
  (exists x, l <= x <= r /\ is_content (getpixel img (x, b)) = true).
Proof.
  intros (x0 & y0 & Hx0 & Hy0 & Hc0). rewrite fallback_visited.
  set (width := fst (size img)) in *. set (height := snd (size img)) in *.
  intros E. apply fold_visit_spec in E.
  destruct E as (_ & Hall & Hl & Ht & Hr & Hb).
  assert (Hin0 : In (x0, y0) (visited width height)) by now apply In_visited.
  destruct (Hall _ Hin0 Hc0) as [Hxb Hyb]. simpl in Hxb, Hyb.
  assert (Hget : forall proj v, attained img (visited width height) proj v ->
            exists x y, (0 <= x < width /\ 0 <= y < height) /\
              (l <= x <= r /\ t0 <= y <= b) /\
              is_content (getpixel img (x, y)) = true /\ proj (x, y) = v).
  { intros proj v ([x y] & Hin & Hc & Hv).
    pose proof (Hall _ Hin Hc) as Hw. apply In_visited in Hin.
    exists x, y. auto. }
  assert (H0 : (0 <= x0 < width /\ 0 <= y0 < height) /\
               (l <= x0 <= r /\ t0 <= y0 <= b) /\
               is_content (getpixel img (x0, y0)) = true) by auto.
  assert (Al : exists x y, (0 <= x < width /\ 0 <= y < height) /\
                 (l <= x <= r /\ t0 <= y <= b) /\
                 is_content (getpixel img (x, y)) = true /\ fst (x, y) = l).
  { destruct Hl as [->|Hl]; [lia|]. now apply Hget. }
  assert (At : exists x y, (0 <= x < width /\ 0 <= y < height) /\
                 (l <= x <= r /\ t0 <= y <= b) /\
                 is_content (getpixel img (x, y)) = true /\ snd (x, y) = t0).
  { destruct Ht as [->|Ht]; [lia|]. now apply Hget. }
  assert (Ar : exists x y, (0 <= x < width /\ 0 <= y < height) /\
                 (l <= x <= r /\ t0 <= y <= b) /\
                 is_content (getpixel img (x, y)) = true /\ fst (x, y) = r).
  { destruct Hr as [Hr0|Hr]; [|now apply Hget].
    exists x0, y0. simpl. repeat split; try tauto; lia. }
  assert (Ab : exists x y, (0 <= x < width /\ 0 <= y < height) /\
                 (l <= x <= r /\ t0 <= y <= b) /\
                 is_content (getpixel img (x, y)) = true /\ snd (x, y) = b).
  { destruct Hb as [Hb0|Hb]; [|now apply Hget].
    exists x0, y0. simpl. repeat split; try tauto; lia. }
  destruct Al as (xl & yl & Hil & Hwl & Hcl & El),
           At as (xt & yt & Hit & Hwt & Hct & Et),
           Ar as (xr & yr & Hir & Hwr & Hcr & Er),
           Ab as (xb & yb & Hib & Hwb & Hcb & Eb).
  simpl in El, Et, Er, Eb. subst xl yt xr yb.
  split; [lia|]. split; [lia|]. split.
  { intros x y Hin Hc. apply (Hall (x, y)); [|exact Hc].
    apply In_visited. unfold inside in Hin. fold width height.
    destruct (size img) as [w h]. simpl in *. lia. }
  split; [exists yl; split; [lia|exact Hcl]|].
  split; [exists xt; split; [lia|exact Hct]|].
  split; [exists yr; split; [lia|exact Hcr]|].
  exists xb; split; [lia|exact Hcb].
Qed.

Lemma black_is_content (p : rgba) : is_black p = true -> is_content p = true.
Proof.
  intros H. destruct (is_content p) eqn:E; [reflexivity|].
  apply background_not_black in E. congruence.
Qed.

(** The two ways the locator ends. *)
Lemma locate_cases (self : t) (img : Image) :
  (exists tl br,
     top_left (as_RGBA img) = Some tl /\ bottom_right (as_RGBA img) = Some br /\
     valid (reconcile (bracket_offset self) tl br
              (top_right (as_RGBA img)) (bottom_left (as_RGBA img))) = true /\
     find_bracket_intersections self img
     = reconcile (bracket_offset self) tl br
         (top_right (as_RGBA img)) (bottom_left (as_RGBA img)))
  \/ find_bracket_intersections self img
     = _find_content_bounds_fallback (as_RGBA img).
Proof.
  unfold find_bracket_intersections.
  destruct (top_left (as_RGBA img)) as [tl|]; [|now right].
  destruct (bottom_right (as_RGBA img)) as [br|]; [|now right].
  destruct (valid _) eqn:E; [|now right].
  left. exists tl, br. auto.
Qed.

(** With content in the image the rectangle is never inverted. *)
Lemma locate_nonempty (self : t) (img : Image) (l t0 r b : Z) :
  has_content (as_RGBA img) ->
  find_bracket_intersections self img = (l, t0, r, b) ->
  l <= r /\ t0 <= b.
Proof.
  intros Hc H. destruct (locate_cases self img)
    as [(tl & br & _ & _ & Hv & Heq)|Heq]; rewrite Heq in H.
  - rewrite H in Hv. unfold valid in Hv. lia.
  - apply (fallback_extrema _ _ _ _ _ Hc) in H. lia.
Qed.



Section CropAndPipeline.
Context {platform : Platform}.


End CropAndPipeline.

(** X10 ([_find_content_bounds_fallback] with line 133): the crop at the
    content bounds is tight.  For an image with some content, cropping at
    the bounds the fallback returns goes through, and the content bounds
    of the crop are its whole frame (0, 0, right-left, bottom-top): no
    all-background row or column is left on any side. *)
Theorem content_crop_is_tight (img : Image) (l t0 r b : Z) :
  has_content (as_RGBA img) ->
  _find_content_bounds_fallback (as_RGBA img) = (l, t0, r, b) ->
  exists cropped,
    crop img (crop_box (l, t0, r, b)) = inr cropped /\
    Image_size cropped = (r - l + 1, b - t0 + 1) /\
    _find_content_bounds_fallback (as_RGBA cropped) = (0, 0, r - l, b - t0).
Proof.
  intros Hc Hfb.
  pose proof (fallback_extrema _ _ _ _ _ Hc Hfb)
    as (Hx & Hy & Hall & (yl & Hyl & Cl) & (xt & Hxt & Ct)
        & (yr & Hyr & Cr) & (xb & Hxb & Cb)).
  destruct (crop img (crop_box (l, t0, r, b))) as [e|cropped] eqn:Ecrop.
  { exfalso. unfold crop, crop_box in Ecrop.
    destruct (r + 1 <? l) eqn:E1; [lia|].
    destruct (b + 1 <? t0) eqn:E2; [lia|]. discriminate. }
  exists cropped. split; [reflexivity|].
  pose proof (crop_as_RGBA _ _ _ _ _ _ Ecrop) as (_ & Hsz & Hpx).
  assert (Hsz' : size (as_RGBA cropped) = (r - l + 1, b - t0 + 1)).
  { rewrite size_as_RGBA, Hsz. f_equal; lia. }
  split; [rewrite <- size_as_RGBA; exact Hsz'|].
  assert (Hsrc : forall x y, 0 <= x <= r - l -> 0 <= y <= b - t0 ->
            getpixel (as_RGBA cropped) (x, y)
            = getpixel (as_RGBA img) (x + l, y + t0)).
  { intros x y Hx' Hy'. apply Hpx. unfold inside.
    destruct (size (as_RGBA img)) as [width height]. simpl in *. lia. }
  assert (Hmoved : forall x y, l <= x <= r -> t0 <= y <= b ->
            is_content (getpixel (as_RGBA img) (x, y)) = true ->
            is_content (getpixel (as_RGBA cropped) (x - l, y - t0)) = true).
  { intros x y Hx' Hy' Hcon. rewrite Hsrc by lia.
    now replace (x - l + l) with x by lia;
        replace (y - t0 + t0) with y by lia. }
  assert (Hc' : has_content (as_RGBA cropped)).
  { exists 0, (yl - t0). rewrite Hsz'. simpl.
    split; [lia|]. split; [lia|].
    replace 0 with (l - l) at 1 by lia. apply Hmoved; auto; lia. }
  destruct (_find_content_bounds_fallback (as_RGBA cropped))
    as [[[l' t'] r'] b'] eqn:E'.
  pose proof (fallback_extrema _ _ _ _ _ Hc' E') as (Hx' & Hy' & Hall' & _).
  rewrite Hsz' in Hx', Hy'. simpl in Hx', Hy'.
  assert (Hins : forall x y, 0 <= x <= r - l -> 0 <= y <= b - t0 ->
            inside (as_RGBA cropped) (x, y) = true).
  { intros x y Hx0 Hy0. unfold inside. rewrite Hsz'. lia. }
  assert (B1 : l' <= l - l <= r' /\ t' <= yl - t0 <= b').
  { apply Hall'; [apply Hins; lia|apply Hmoved; auto; lia]. }
  assert (B2 : l' <= xt - l <= r' /\ t' <= t0 - t0 <= b').
  { apply Hall'; [apply Hins; lia|apply Hmoved; auto; lia]. }
  assert (B3 : l' <= r - l <= r' /\ t' <= yr - t0 <= b').
  { apply Hall'; [apply Hins; lia|apply Hmoved; auto; lia]. }
  assert (B4 : l' <= xb - l <= r' /\ t' <= b - t0 <= b').
  { apply Hall'; [apply Hins; lia|apply Hmoved; auto; lia]. }
  repeat f_equal; lia.
Qed.

(** ** A directory without PNG names *)

Section Failures.
Context {platform : Platform}.




End Failures.

(** ** Which names the batch takes *)

Lemma length_lower (s : string) : String.length (Py.lower s) = String.length s.
Proof. induction s as [|c s IH]; simpl; congruence. Qed.

Lemma lower_app (a b : string) :
  Py.lower (a ++ b) = (Py.lower a ++ Py.lower b)%string.
Proof. induction a as [|c a IH]; simpl; congruence. Qed.

Lemma lower_substring (s : string) :
  forall n m, Py.lower (substring n m s) = substring n m (Py.lower s).
Proof.
  induction s as [|c s IH]; intros [|n] [|m]; simpl; try reflexivity;
    rewrite ?IH; reflexivity.
Qed.

Lemma substring_whole (s : string) : substring 0 (String.length s) s = s.
Proof. induction s as [|c s IH]; simpl; congruence. Qed.

Lemma substring_after (a b : string) :
  substring (String.length a) (String.length b) (a ++ b) = b.
Proof.
  induction a as [|c a IH]; simpl; [apply substring_whole|exact IH].
Qed.

Lemma length_app (a b : string) :
  String.length (a ++ b) = (String.length a + String.length b)%nat.
Proof. induction a as [|c a IH]; simpl; congruence. Qed.

Lemma substring_split (s : string) :
  forall n, (n <= String.length s)%nat ->
    s = (substring 0 n s ++ substring n (String.length s - n) s)%string.
Proof.
  induction s as [|c s IH]; intros [|n] Hn; simpl in *; try reflexivity;
    try lia.
  - now rewrite substring_whole.
  - f_equal. apply IH. lia.
Qed.

Lemma endswith_iff (s suffix : string) :
  Py.endswith s suffix = true <-> exists stem, s = (stem ++ suffix)%string.
Proof.
  unfold Py.endswith. rewrite andb_true_iff, Nat.leb_le, String.eqb_eq.
  split.
  - intros [Hle Hsub].
    exists (substring 0 (String.length s - String.length suffix) s).
    assert (Hk : (String.length s - (String.length s - String.length suffix)
                  = String.length suffix)%nat) by lia.
    assert (Hn : (String.length s - String.length suffix
                  <= String.length s)%nat) by lia.
    pose proof (substring_split s _ Hn) as Hs.
    rewrite Hk, Hsub in Hs. exact Hs.
  - intros [stem ->]. rewrite length_app. split; [lia|].
    replace (String.length stem + String.length suffix
             - String.length suffix)%nat
      with (String.length stem) by lia.
    apply substring_after.
Qed.

(** X14 ([batch_process], line 172): a listed name is processed exactly
    when it ends in a four-character extension that reads ".png" once its
    letters are lowered (".png", ".PNG", ".Png", ...), whatever comes
    before it, also nothing. *)
Theorem is_png_iff (f : string) :
  is_png f = true <->
  exists stem ext,
    f = (stem ++ ext)%string /\ Py.lower ext = ".png"%string.
Proof.
  unfold is_png. rewrite endswith_iff. split.
  - intros [stem' Hf].
    assert (Hlen : (4 <= String.length f)%nat).
    { rewrite <- length_lower, Hf, length_app. simpl. lia. }
    exists (substring 0 (String.length f - 4) f),
           (substring (String.length f - 4) 4 f).
    split.
    + assert (H4 : (String.length f - (String.length f - 4) = 4)%nat) by lia.
      assert (Hle : (String.length f - 4 <= String.length f)%nat) by lia.
      pose proof (substring_split f (String.length f - 4) Hle) as Hs.
      rewrite H4 in Hs. exact Hs.
    + rewrite lower_substring, Hf.
      replace (String.length f) with (String.length stem' + 4)%nat.
      * replace (String.length stem' + 4 - 4)%nat
          with (String.length stem') by lia.
        apply (substring_after stem' ".png").
      * rewrite <- (length_lower f), Hf, length_app. reflexivity.
  - intros (stem & ext & -> & Hext).
    exists (Py.lower stem). now rewrite lower_app, Hext.
Qed.

(** ** The flattening blend *)

(** The library's division by 255 rounds to the nearest integer. *)
Lemma DIV255_rounds (a : Z) :
  0 <= a <= 255 * 255 -> DIV255 a = (a + 127) / 255.
Proof.
  unfold DIV255. intros Ha. cbv zeta.
  rewrite !Z.shiftr_div_pow2 by lia. change (2 ^ 8) with 256.
  pose proof (Z.div_mod (a + 127) 255 ltac:(lia)) as Hdiv.
  pose proof (Z.mod_pos_bound (a + 127) 255 ltac:(lia)) as Hmod.
  set (q := (a + 127) / 255) in *. set (m := (a + 127) mod 255) in *.
  assert (Hq : 0 <= q <= 255) by lia.
  destruct (Z_le_gt_dec q (m + 1)) as [Hle|Hgt].
  - assert (H1 : (a + 128) / 256 = q).
    { symmetry. apply Z.div_unique with (r := m + 1 - q); lia. }
    rewrite H1. symmetry. apply Z.div_unique with (r := m + 1); lia.
  - assert (H1 : (a + 128) / 256 = q - 1).
    { symmetry. apply Z.div_unique with (r := m + 1 - q + 256); lia. }
    rewrite H1. symmetry. apply Z.div_unique with (r := m); lia.
Qed.

Lemma BLEND8_over_white (a v : Z) :
  octet a -> octet v ->
  BLEND8 a 255 v = (255 * (255 - a) + v * a + 127) / 255 /\
  v <= BLEND8 a 255 v <= 255.
Proof.
  unfold octet, BLEND8. intros Ha Hv.
  assert (Hrange : 0 <= 255 * (255 - a) + v * a <= 255 * 255) by nia.
  rewrite (DIV255_rounds _ Hrange). split; [reflexivity|].
  assert (Hlow : 255 * v <= 255 * (255 - a) + v * a) by nia.
  Z.div_mod_to_equations. lia.
Qed.

(** X15 ([process_image], lines 141-144): flattening an RGBA image with
    8-bit bands gives, in each colour band, the linear blend of the pixel
    over white under its alpha, (255 * (255 - a) + v * a) / 255 rounded to
    the nearest integer.  The result is again 8-bit and never darker than
    the pixel it came from. *)
Theorem flatten_blends_towards_white (r : Raster rgba)
    (x y red green blue alpha : Z) :
  getpixel r (x, y) = (red, green, blue, alpha) ->
  octet red -> octet green -> octet blue -> octet alpha ->
  exists flat : Raster rgb,
    flatten (mkImage RGBA r) = mkImage RGB flat /\
    getpixel flat (x, y)
    = ((255 * (255 - alpha) + red * alpha + 127) / 255,
       (255 * (255 - alpha) + green * alpha + 127) / 255,
       (255 * (255 - alpha) + blue * alpha + 127) / 255) /\
    (let '(red', green', blue') := getpixel flat (x, y) in
     red <= red' <= 255 /\ green <= green' <= 255 /\ blue <= blue' <= 255).
Proof.
  intros Hpx Hr Hg Hb Ha.
  exists (paste (new_RGB (size r) (255, 255, 255)) r (alpha_band r)).
  split; [reflexivity|].
  cbn [paste getpixel new_RGB alpha_band]. rewrite Hpx.
  destruct (BLEND8_over_white alpha red Ha Hr) as [-> ?].
  destruct (BLEND8_over_white alpha green Ha Hg) as [-> ?].
  destruct (BLEND8_over_white alpha blue Ha Hb) as [-> ?].
  split; [reflexivity|]. auto.
Qed.

(** ** The command line *)

Section CommandLine.
Context {platform : Platform}.
Variable os_path_exists : string -> World -> bool.



End CommandLine.

(** ** Brackets that line up *)

(** X18 ([find_bracket_intersections], lines 75-90): when the four
    candidates are the corners of an upright rectangle (top-right level
    with top-left and above bottom-right, bottom-left below top-left and
    level with bottom-right) that is more than twice the offset wide and
    high, the locator returns that rectangle moved inwards by exactly the
    offset on each side; the two optional corners then change nothing. *)
Theorem aligned_brackets_give_exact_inset (self : t) (img : Image)
    (x1 y1 x2 y2 : Z) :
  top_left (as_RGBA img) = Some (x1, y1) ->
  bottom_right (as_RGBA img) = Some (x2, y2) ->
  top_right (as_RGBA img) = Some (x2, y1) ->
  bottom_left (as_RGBA img) = Some (x1, y2) ->
  x2 - x1 > 2 * bracket_offset self ->
  y2 - y1 > 2 * bracket_offset self ->
  find_bracket_intersections self img
  = (x1 + bracket_offset self, y1 + bracket_offset self,
     x2 - bracket_offset self, y2 - bracket_offset self).
Proof.
  intros Htl Hbr Htr Hbl Hw Hh. unfold find_bracket_intersections.
  rewrite Htl, Hbr, Htr, Hbl. unfold reconcile. cbn [fst snd].
  rewrite Z.max_id, !Z.min_id, Z.max_id. unfold valid.
  assert (E1 : (x2 - bracket_offset self >? x1 + bracket_offset self) = true)
    by lia.
  assert (E2 : (y2 - bracket_offset self >? y1 + bracket_offset self) = true)
    by lia.
  now rewrite E1, E2.
Qed.

(** ** Runs of the further properties *)

Lemma top_left_is_first_in_reading_order_witness :
  is_black (getpixel marks (3, 7)) = true /\
  (0 <= 3 < Z.min 50 100 /\ 0 <= 7 < Z.min 50 100) /\
  forall x' y', 0 <= x' < Z.min 50 100 -> 0 <= y' < Z.min 50 100 ->
    is_black (getpixel marks (x', y')) = true ->
    7 < y' \/ (y' = 7 /\ 3 <= x').
Proof.
  apply (top_left_is_first_in_reading_order marks 100 100 3 7).
  - reflexivity.
  - vm_compute. reflexivity.
Defined.

Lemma bottom_right_is_last_in_reading_order_witness :
  is_black (getpixel marks (97, 95)) = true /\
  (Z.max (100 - 50) 0 < 97 <= 100 - 1 /\ Z.max (100 - 50) 0 < 95 <= 100 - 1) /\
  forall x' y', Z.max (100 - 50) 0 < x' <= 100 - 1 ->
    Z.max (100 - 50) 0 < y' <= 100 - 1 ->
    is_black (getpixel marks (x', y')) = true ->
    y' < 95 \/ (y' = 95 /\ x' <= 97).
Proof.
  apply (bottom_right_is_last_in_reading_order marks 100 100 97 95).
  - reflexivity.
  - vm_compute. reflexivity.
Defined.

Lemma side_corners_scan_order_witness :
  is_black (getpixel (as_RGBA Toy.brackets_100) (98, 1)) = true /\
  is_black (getpixel (as_RGBA Toy.brackets_100) (1, 98)) = true.
Proof.
  destruct (side_corners_scan_order (as_RGBA Toy.brackets_100) 100 100 eq_refl)
    as [Htr Hbl].
  split.
  - apply (Htr 98 1). vm_compute. reflexivity.
  - apply (Hbl 1 98). vm_compute. reflexivity.
Defined.

Lemma locator_reads_only_colours_inside_witness :
  find_bracket_intersections default
    (sheet_RGB (100, 100) [(1, 1); (98, 98)])
  = find_bracket_intersections default
      (sheet_RGBA (100, 100) [(1, 1); (98, 98)]).
Proof.
  apply locator_reads_only_colours_inside.
  - reflexivity.
  - intros x y _ _.
    change (colour (to_rgba RGB (if mem_point (x, y) [(1, 1); (98, 98)]
                                 then (0, 0, 0) else (255, 255, 255)))
            = colour (if mem_point (x, y) [(1, 1); (98, 98)]
                      then (0, 0, 0, 255) else (255, 255, 255, 255))).
    destruct (mem_point (x, y) [(1, 1); (98, 98)]); reflexivity.
Defined.

Lemma thin_image_uses_fallback_witness :
  find_bracket_intersections default (sheet_RGBA (1, 30) [(0, 3); (0, 20)])
  = _find_content_bounds_fallback
      (as_RGBA (sheet_RGBA (1, 30) [(0, 3); (0, 20)])).
Proof.
  apply (thin_image_uses_fallback default
           (sheet_RGBA (1, 30) [(0, 3); (0, 20)])).
  left. simpl. lia.
Defined.

Lemma brackets_100_has_content : has_content (as_RGBA Toy.brackets_100).
Proof. exists 1, 1. simpl. repeat split; lia. Defined.


Lemma content_crop_is_tight_witness :
  exists cropped,
    crop (sheet_RGBA (10, 10) [(2, 3); (5, 6)]) (crop_box (2, 3, 5, 6))
    = inr cropped /\
    Image_size cropped = (5 - 2 + 1, 6 - 3 + 1) /\
    _find_content_bounds_fallback (as_RGBA cropped) = (0, 0, 5 - 2, 6 - 3).
Proof.
  apply (content_crop_is_tight (sheet_RGBA (10, 10) [(2, 3); (5, 6)])).
  - exists 2, 3. simpl. repeat split; lia.
  - vm_compute. reflexivity.
Defined.


Lemma flatten_blends_towards_white_witness :
  exists flat : Raster rgb,
    flatten (mkImage RGBA tinted) = mkImage RGB flat /\
    getpixel flat (0, 0)
    = ((255 * (255 - 128) + 10 * 128 + 127) / 255,
       (255 * (255 - 128) + 20 * 128 + 127) / 255,
       (255 * (255 - 128) + 30 * 128 + 127) / 255) /\
    (let '(red', green', blue') := getpixel flat (0, 0) in
     10 <= red' <= 255 /\ 20 <= green' <= 255 /\ 30 <= blue' <= 255).
Proof.
  apply (flatten_blends_towards_white tinted 0 0 10 20 30 128).
  - reflexivity.
  - unfold octet. lia.
  - unfold octet. lia.
  - unfold octet. lia.
  - unfold octet. lia.
Defined.


Lemma aligned_brackets_give_exact_inset_witness :
  find_bracket_intersections default Toy.brackets_100 = (3, 3, 96, 96).
Proof.
  apply (aligned_brackets_give_exact_inset default Toy.brackets_100
           1 1 98 98).
  - vm_compute. reflexivity.
  - vm_compute. reflexivity.
  - vm_compute. reflexivity.
  - vm_compute. reflexivity.
  - simpl. lia.
  - simpl. lia.
Defined.

(** * The processor with its printing *)

Section PrintingRuns.
Context {platform : Platform} {console : Console}.

Lemma when_verbose_ok (verbose : bool) (line : Line) (w : World) :
  prints_go_through verbose ->
  exists w', Printing.when_verbose verbose line w = (w', inr tt).
Proof.
  intros [->|Hok]; [exists w; reflexivity|].
  destruct verbose; [|exists w; reflexivity].
  unfold Printing.when_verbose, Printing.say, Run.effect.
  specialize (Hok line w). destruct (print line w) as [w' [e|]];
    [discriminate|]. now exists w'.
Qed.

(** The rectangle of the printing locator is the rectangle of the locator;
    it raises only when its warning could not be printed. *)
Lemma printing_locator_value (self : t) (img : Image) (w : World) :
  (exists w', Printing.find_bracket_intersections self img w
              = (w', inr (find_bracket_intersections self img)))
  \/ (exists w' e, Printing.find_bracket_intersections self img w = (w', inl e)
                   /\ print Line_warning w = (w', Some e)).
Proof.
  unfold Printing.find_bracket_intersections, find_bracket_intersections.
  destruct (top_left (as_RGBA img)) as [tl|]; [|left; now exists w].
  destruct (bottom_right (as_RGBA img)) as [br|]; [|left; now exists w].
  destruct (valid _); [left; now exists w|].
  unfold Run.bind, Printing.say, Run.effect, Run.ret.
  destruct (print Line_warning w) as [w' [e|]] eqn:E.
  - right. now exists w', e.
  - left. now exists w'.
Qed.

(** What went through when the body of the [try] ended without an
    exception. *)
Lemma printing_body_done (self : t) (input_path output_path : string)
    (verbose : bool) (w w' : World) (u : unit) :
  Printing.process_image_body self input_path output_path verbose w
  = (w', inr u) ->
  exists img cropped resized w1 w2,
    Image_open input_path w = inr img /\
    Limits.Image_crop img (crop_box (find_bracket_intersections self img))
    = inr cropped /\
    Limits.Image_resize cropped (target_size self) LANCZOS = inr resized /\
    Image_save (flatten resized) output_path w1 = (w2, None).
Proof.
  unfold Printing.process_image_body, Run.bind, Run.pure.
  destruct (Image_open input_path w) as [e|img] eqn:E1; [discriminate|].
  destruct (Printing.when_verbose verbose _ w) as [wa [e|]]; [discriminate|].
  destruct (printing_locator_value self img wa)
    as [[wb ->]|(wb & e & -> & _)]; [|discriminate].
  destruct (Limits.Image_crop img _) as [e|cropped] eqn:E2; [discriminate|].
  destruct (Printing.when_verbose verbose _ wb) as [wc [e|]]; [discriminate|].
  destruct (Limits.Image_resize cropped _ _) as [e|resized] eqn:E3;
    [discriminate|].
  destruct (Printing.when_verbose verbose _ wc) as [wd [e|]]; [discriminate|].
  unfold Run.effect at 1.
  destruct (os_makedirs _ wd) as [we [e|]]; [discriminate|].
  unfold Run.effect at 1.
  destruct (Image_save _ output_path we) as [wf [e|]] eqn:E4; [discriminate|].
  intros _. exists img, cropped, resized, we, wf. auto.
Qed.

Lemma Image_crop_inr (img cropped : Image) (box : Z * Z * Z * Z) :
  Limits.Image_crop img box = inr cropped -> crop img box = inr cropped.
Proof.
  unfold Limits.Image_crop. destruct (crop img box) as [e|c]; [discriminate|].
  destruct (Limits.decompression_bomb _); [discriminate|]. congruence.
Qed.

Lemma Image_resize_inr (img resized : Image) (target : Z * Z)
    (f : Resampling) :
  Limits.Image_resize img target f = inr resized ->
  mode resized = mode img /\ Image_size resized = target /\
  (Image_size img = target \/ (1 <= fst target /\ 1 <= snd target)).
Proof.
  unfold Limits.Image_resize.
  destruct ((fst (Image_size img) =? fst target)
            && (snd (Image_size img) =? snd target)) eqn:Esame.
  - intros [= <-]. apply andb_prop in Esame.
    assert (Heq : Image_size img = target).
    { destruct (Image_size img), target. simpl in *. f_equal; lia. }
    auto.
  - destruct (negb _); [discriminate|]. intros H.
    apply resize_inr in H. tauto.
Qed.

(** X11 ([process_image], lines 113-156, with its prints and the
    library's size limits): True means the image was saved, in the
    target size; and an exception leaves [process_image] only from the
    print in its handler, that is, only when [verbose] is on, the body
    raised and printing the error message raised too. *)
Theorem printing_process_image_outcomes (self : t)
    (input_path output_path : string) (verbose : bool) (w w' : World) :
  (Printing.process_image self input_path output_path verbose w
   = (w', inr true) ->
   exists img cropped resized w1 w2,
     Image_open input_path w = inr img /\
     crop img (crop_box (find_bracket_intersections self img)) = inr cropped /\
     mode resized = mode img /\
     Image_save (flatten resized) output_path w1 = (w2, None) /\
     Image_size (flatten resized) = target_size self) /\
  (forall e',
     Printing.process_image self input_path output_path verbose w
     = (w', inl e') <->
     verbose = true /\
     exists w1 e,
       Printing.process_image_body self input_path output_path true w
       = (w1, inl e) /\
       print (Line_error input_path e) w1 = (w', Some e')).
Proof.
  unfold Printing.process_image. split.
  - destruct (Printing.process_image_body _ _ _ _ w) as [w1 [e|u]] eqn:E.
    + destruct (Printing.when_verbose _ _ w1) as [w2 [e2|]]; discriminate.
    + intros _. apply printing_body_done in E.
      destruct E as (img & cropped & resized & wa & wb & Ho & Hc & Hr & Hs).
      exists img, cropped, resized, wa, wb.
      apply Image_crop_inr in Hc. pose proof (crop_inr _ _ _ Hc) as Hmc.
      apply Image_resize_inr in Hr. destruct Hr as (Hmr & Hsz & _).
      repeat split; auto; [congruence|]. now rewrite flatten_size.
  - intros e'. destruct verbose.
    + destruct (Printing.process_image_body _ _ _ _ w) as [w1 [e|u]] eqn:E.
      * unfold Printing.when_verbose, Printing.say, Run.effect.
        destruct (print (Line_error input_path e) w1) as [w2 [e2|]] eqn:Ep.
        -- split.
           ++ intros [= <- <-]. split; [reflexivity|]. now exists w1, e.
           ++ intros (_ & w3 & e3 & [= <- <-] & Hp). rewrite Ep in Hp.
              now injection Hp as <- <-.
        -- split; [discriminate|].
           intros (_ & w3 & e3 & [= <- <-] & Hp). rewrite Ep in Hp.
           discriminate.
      * split; [discriminate|]. intros (_ & w3 & e3 & [=] & _).
    + split; [|intros [[=] _]].
      destruct (Printing.process_image_body _ _ _ _ w) as [w1 [e|u]];
        discriminate.
Qed.

(** When no print guarded by [verbose] raises, [process_image] returns a
    Boolean: the warning of the locator is printed inside the [try]. *)
Lemma printing_process_image_bool (self : t)
    (input_path output_path : string) (verbose : bool) (w : World) :
  prints_go_through verbose ->
  exists w' ok,
    Printing.process_image self input_path output_path verbose w
    = (w', inr ok).
Proof.
  intros Hok. unfold Printing.process_image.
  destruct (Printing.process_image_body _ _ _ _ w) as [w1 [e|u]].
  - destruct (when_verbose_ok verbose (Line_error input_path e) w1 Hok)
      as [w2 ->]. now exists w2, false.
  - now exists w1, true.
Qed.

(** The outcomes of the files, for a loop that reached its end. *)
Lemma printing_loop_counts (self : t) (input_dir output_dir : string)
    (verbose : bool) (png_files : list string) :
  prints_go_through verbose ->
  forall successful failed w,
  exists w' s f,
    Printing.batch_loop self input_dir output_dir verbose png_files
      successful failed w = (w', inr (s, f)) /\
    (s + f = successful + failed + List.length png_files)%nat /\
    (successful <= s)%nat /\ (failed <= f)%nat.
Proof.
  intros Hok. induction png_files as [|file rest IH];
    intros successful failed w.
  - exists w, successful, failed. simpl. repeat split; lia.
  - cbn [Printing.batch_loop]. unfold Run.bind.
    destruct (printing_process_image_bool self
                (os_path_join input_dir file) (os_path_join output_dir file)
                verbose w Hok) as (w1 & ok & ->).
    destruct (when_verbose_ok verbose Line_blank w1 Hok) as [w2 ->].
    destruct ok.
    + destruct (IH (S successful) failed w2) as (w' & s & f & -> & H1 & H2 & H3).
      exists w', s, f. simpl. repeat split; lia.
    + destruct (IH successful (S failed) w2) as (w' & s & f & -> & H1 & H2 & H3).
      exists w', s, f. simpl. repeat split; lia.
Qed.

(** X12 ([batch_process], lines 158-206, with its prints): as long as no
    print guarded by [verbose] raises (printing is off, or the console
    takes every line) an image never makes the batch raise.  The batch then ends with an
    exception exactly when creating the output directory raised, or that
    went through and listing the input directory raised; otherwise it
    returns two counts that add up to the number of names ending in
    .png. *)
Theorem batch_raises_only_for_directories (self : t)
    (input_dir output_dir : string) (verbose : bool) (w : World) :
  prints_go_through verbose ->
  (forall w' e,
     Printing.batch_process self input_dir output_dir verbose w = (w', inl e)
     <->
     os_makedirs output_dir w = (w', Some e) \/
     (os_makedirs output_dir w = (w', None) /\
      os_listdir input_dir w' = inl e)) /\
  (forall w1 names,
     os_makedirs output_dir w = (w1, None) ->
     os_listdir input_dir w1 = inr names ->
     exists w' successful failed,
       Printing.batch_process self input_dir output_dir verbose w
       = (w', inr (successful, failed)) /\
       (successful + failed = List.length (filter is_png names))%nat).
Proof.
  intros Hok.
  assert (Hrun : forall w1 names,
            os_makedirs output_dir w = (w1, None) ->
            os_listdir input_dir w1 = inr names ->
            exists w' successful failed,
              Printing.batch_process self input_dir output_dir verbose w
              = (w', inr (successful, failed)) /\
              (successful + failed = List.length (filter is_png names))%nat).
  { intros w1 names Hmk Hls.
    unfold Printing.batch_process, Run.bind, Run.effect, Run.pure, Run.ret.
    rewrite Hmk, Hls.
    destruct (filter is_png names) as [|f0 rest] eqn:Ef.
    - destruct (when_verbose_ok verbose (Line_no_png input_dir) w1 Hok)
        as [w2 ->]. exists w2, 0%nat, 0%nat. auto.
    - destruct (when_verbose_ok verbose
                  (Line_found (List.length (f0 :: rest))) w1 Hok) as [w2 ->].
      destruct (when_verbose_ok verbose
                  (Line_target (fst (target_size self))
                     (snd (target_size self))) w2 Hok) as [w3 ->].
      destruct (when_verbose_ok verbose Line_rule w3 Hok) as [w4 ->].
      destruct (printing_loop_counts self input_dir output_dir verbose
                  (f0 :: rest) Hok 0%nat 0%nat w4)
        as (w5 & s & f & -> & Hsum & _ & _).
      destruct (when_verbose_ok verbose Line_rule w5 Hok) as [w6 ->].
      destruct (when_verbose_ok verbose Line_complete w6 Hok) as [w7 ->].
      destruct (when_verbose_ok verbose (Line_successful (fst (s, f))) w7 Hok)
        as [w8 ->].
      destruct (when_verbose_ok verbose (Line_failed (snd (s, f))) w8 Hok)
        as [w9 ->].
      destruct (when_verbose_ok verbose (Line_saved_to output_dir) w9 Hok)
        as [w10 ->].
      exists w10, s, f. split; [reflexivity|]. lia. }
  split; [|exact Hrun].
  intros w' e.
  destruct (os_makedirs output_dir w) as [w1 [e1|]] eqn:Hmk.
  - unfold Printing.batch_process, Run.bind, Run.effect. rewrite Hmk.
    split.
    + intros [= <- <-]. now left.
    + intros [[= <- <-]|[[=] _]]. reflexivity.
  - destruct (os_listdir input_dir w1) as [e2|names] eqn:Hls.
    + unfold Printing.batch_process, Run.bind, Run.effect, Run.pure.
      rewrite Hmk, Hls. split.
      * intros [= <- <-]. right. auto.
      * intros [[=]|[[= <-] He]]. rewrite Hls in He. now injection He as <-.
    + destruct (Hrun w1 names eq_refl Hls) as (w2 & s & f & -> & _). split.
      * discriminate.
      * intros [[=]|[[= <-] He]]. rewrite Hls in He. discriminate.
Qed.

(** X9 (lines 133-137 and 151-156): with a target width or height below
    1, an image with some content is never reported as processed:
    whatever the offset and whether printing is on or off,
    [process_image] does not return True. *)
Theorem nonpositive_target_never_succeeds (self : t)
    (input_path output_path : string) (verbose : bool) (w : World)
    (img : Image) :
  Image_open input_path w = inr img ->
  has_content (as_RGBA img) ->
  fst (target_size self) < 1 \/ snd (target_size self) < 1 ->
  forall w',
    Printing.process_image self input_path output_path verbose w
    <> (w', inr true).
Proof.
  intros Hopen Hc Hbad w' Hrun. unfold Printing.process_image in Hrun.
  destruct (Printing.process_image_body _ _ _ _ w) as [w1 [e|u]] eqn:E.
  { destruct (Printing.when_verbose _ _ w1) as [w2 [e2|]]; discriminate. }
  apply printing_body_done in E.
  destruct E as (img' & cropped & resized & wa & wb & Ho & Hcrop & Hres & _).
  rewrite Hopen in Ho. injection Ho as <-.
  destruct (find_bracket_intersections self img) as [[[l t0] r] b] eqn:Eloc.
  pose proof (locate_nonempty self img l t0 r b Hc Eloc) as (Hx & Hy).
  apply Image_crop_inr in Hcrop.
  pose proof (crop_as_RGBA _ _ _ _ _ _ Hcrop) as (_ & Hsz & _).
  apply Image_resize_inr in Hres. destruct Hres as (_ & _ & [Hsame|Hpos]).
  - rewrite Hsz in Hsame. rewrite <- Hsame in Hbad. simpl in Hbad. lia.
  - lia.
Qed.

(** The loop over two lists in a row. *)
Lemma printing_loop_app (self : t) (input_dir output_dir : string)
    (verbose : bool) (l1 l2 : list string) :
  forall successful failed w,
    Printing.batch_loop self input_dir output_dir verbose (l1 ++ l2)
      successful failed w
    = match Printing.batch_loop self input_dir output_dir verbose l1
              successful failed w with
      | (w1, inr (s1, f1)) =>
          Printing.batch_loop self input_dir output_dir verbose l2 s1 f1 w1
      | (w1, inl e) => (w1, inl e)
      end.
Proof.
  induction l1 as [|f l1 IH]; intros successful failed w;
    [reflexivity|].
  cbn [app Printing.batch_loop]. unfold Run.bind.
  destruct (Printing.process_image self _ _ verbose w) as [w1 [e|ok]];
    [reflexivity|].
  destruct (Printing.when_verbose verbose Line_blank w1) as [w2 [e|u]];
    [reflexivity|].
  destruct ok; apply IH.
Qed.

Lemma printing_loop_one_more_failure (self : t)
    (input_dir output_dir : string) (verbose : bool) (l : list string) :
  forall successful failed w,
    Printing.batch_loop self input_dir output_dir verbose l
      successful (S failed) w
    = match Printing.batch_loop self input_dir output_dir verbose l
              successful failed w with
      | (w', inr (s, n)) => (w', inr (s, S n))
      | (w', inl e) => (w', inl e)
      end.
Proof.
  induction l as [|g l IH]; intros successful failed w; [reflexivity|].
  cbn [Printing.batch_loop]. unfold Run.bind.
  destruct (Printing.process_image self _ _ verbose w) as [w1 [e|ok]];
    [reflexivity|].
  destruct (Printing.when_verbose verbose Line_blank w1) as [w2 [e|u]];
    [reflexivity|].
  destruct ok; apply IH.
Qed.

(** X19 ([batch_process] with [process_image], lines 125-156 and 187-197,
    printing off): a file the decoder refuses costs exactly one failure
    and nothing else.  With such a file anywhere in the list, the loop
    ends with the file system and the success count it would have without
    the file, and one more failure. *)
Theorem undecodable_file_only_adds_a_failure (self : t)
    (input_dir output_dir : string) (before after : list string)
    (f : string) (successful failed s1 f1 : nat) (w w1 : World)
    (e : Py.Exception) :
  Printing.batch_loop self input_dir output_dir false before
    successful failed w = (w1, inr (s1, f1)) ->
  Image_open (os_path_join input_dir f) w1 = inl e ->
  exists w' s n,
    Printing.batch_loop self input_dir output_dir false (before ++ after)
      successful failed w = (w', inr (s, n)) /\
    Printing.batch_loop self input_dir output_dir false
      (before ++ f :: after) successful failed w = (w', inr (s, S n)).
Proof.
  intros Hbefore Hopen. rewrite !printing_loop_app, Hbefore.
  assert (Hquiet : prints_go_through false) by now left.
  destruct (printing_loop_counts self input_dir output_dir false after
              Hquiet s1 f1 w1) as (w' & s & n & Hafter & _).
  exists w', s, n. split; [exact Hafter|].
  cbn [Printing.batch_loop]. unfold Run.bind.
  assert (Hfile : Printing.process_image self (os_path_join input_dir f)
                    (os_path_join output_dir f) false w1 = (w1, inr false)).
  { unfold Printing.process_image, Printing.process_image_body, Run.bind,
      Run.pure. now rewrite Hopen. }
  rewrite Hfile. cbn [Printing.when_verbose Run.ret].
  now rewrite printing_loop_one_more_failure, Hafter.
Qed.

End PrintingRuns.

(** X8 (lines 75-111 and 133): for an image with some content the box
    handed to crop has left < right and upper < lower, whatever the
    offset.  So the refusal of an inverted box, by which an all-background
    image fails, cannot happen; crop is refused only when the box is
    larger than the library's pixel limit. *)
Theorem content_image_has_proper_crop_box (self : t) (img : Image)
    (l u r d : Z) :
  has_content (as_RGBA img) ->
  crop_box (find_bracket_intersections self img) = (l, u, r, d) ->
  l < r /\ u < d /\
  exists cropped,
    crop img (l, u, r, d) = inr cropped /\
    Image_size cropped = (r - l, d - u) /\
    (Limits.Image_crop img (l, u, r, d) = inr cropped \/
     (Limits.decompression_bomb (r - l, d - u) = true /\
      exists msg,
        Limits.Image_crop img (l, u, r, d)
        = inl (Py.DecompressionBombError msg))).
Proof.
  intros Hc Hbox.
  destruct (find_bracket_intersections self img) as [[[l0 t0] r0] b0] eqn:E.
  pose proof (locate_nonempty self img l0 t0 r0 b0 Hc E) as (Hx & Hy).
  unfold crop_box in Hbox. injection Hbox as <- <- <- <-.
  split; [lia|]. split; [lia|].
  destruct (crop img (l0, t0, r0 + 1, b0 + 1)) as [e|cropped] eqn:Ecrop.
  { exfalso. unfold crop in Ecrop.
    destruct (r0 + 1 <? l0) eqn:E1; [lia|].
    destruct (b0 + 1 <? t0) eqn:E2; [lia|]. discriminate. }
  exists cropped. split; [reflexivity|].
  pose proof (crop_as_RGBA _ _ _ _ _ _ Ecrop) as (_ & Hsz & _).
  split; [exact Hsz|].
  unfold Limits.Image_crop. rewrite Ecrop, Hsz.
  destruct (Limits.decompression_bomb _); [right|left; reflexivity].
  split; [reflexivity|]. eexists. reflexivity.
Qed.

(** C7: what the code does where the claim fails.  In the sample
    directory the undecodable file has a name standard output cannot
    encode.  With printing on, as it is by default, [process_image]
    catches the decoder's exception, prints the error message with the
    path, and that print raises inside the handler: the exception leaves
    [process_image] and [batch_process], no pair is returned and the file
    after it is never processed.  With printing off the same directory
    gives (2, 1). *)
Theorem handler_print_aborts_batch :
  let run := fun verbose =>
    Printing.batch_process (console := ascii_console) default
      "shots" "processed" verbose accented_shots in
  let corrupt := Toy.join "shots" accented_png in
  is_png accented_png = true /\
  Toy.open corrupt accented_shots
  = inl (Py.OSError "cannot identify image file") /\
  snd (Printing.process_image (console := ascii_console) default
         corrupt (Toy.join "processed" accented_png) true
         (("processed"%string, Toy.Directory) :: accented_shots))
  = inl (Py.ValueError "UnicodeEncodeError") /\
  snd (run true) = inl (Py.ValueError "UnicodeEncodeError") /\
  Toy_exists "processed/a.png" (fst (run true)) = true /\
  Toy_exists "processed/c.png" (fst (run true)) = false /\
  snd (run false) = inr (2%nat, 1%nat) /\
  Toy_exists "processed/c.png" (fst (run false)) = true.
Proof.
  cbv zeta. repeat split; vm_compute; reflexivity.
Qed.

(** ** Runs of the printing processor *)

(** The first sample file is processed and saved in the default size; the
    undecodable file with the accented name makes the handler's print
    raise. *)
Lemma printing_process_image_outcomes_witness :
  (exists img cropped resized w1 w2,
     Toy.open "shots/a.png" Toy.shots_ready = inr img /\
     crop img (crop_box (find_bracket_intersections default img))
     = inr cropped /\
     mode resized = mode img /\
     Toy.save (flatten resized) "processed/a.png" w1 = (w2, None) /\
     Image_size (flatten resized) = (670, 366)) /\
  snd (Printing.process_image (console := ascii_console) default
         (Toy.join "shots" accented_png) (Toy.join "processed" accented_png)
         true accented_shots)
  = inl (Py.ValueError "UnicodeEncodeError").
Proof.
  split.
  - pose proof (printing_process_image_outcomes (console := ascii_console)
                  default "shots/a.png" "processed/a.png" true Toy.shots_ready
                  (fst (Printing.process_image (console := ascii_console)
                          default "shots/a.png" "processed/a.png" true
                          Toy.shots_ready))) as [Hdone _].
    apply Hdone. apply injective_projections; cbn [fst snd];
      [reflexivity | vm_compute; reflexivity].
  - pose proof (printing_process_image_outcomes (console := ascii_console)
                  default (Toy.join "shots" accented_png)
                  (Toy.join "processed" accented_png) true accented_shots
                  accented_shots) as [_ Hraise].
    rewrite (proj2 (Hraise (Py.ValueError "UnicodeEncodeError")));
      [reflexivity|].
    split; [reflexivity|].
    exists accented_shots, (Py.OSError "cannot identify image file").
    split; reflexivity.
Defined.

Lemma batch_raises_only_for_directories_witness :
  exists w' successful failed,
    Printing.batch_process (console := ascii_console) default
      "shots" "processed" false accented_shots
    = (w', inr (successful, failed)) /\
    (successful + failed
     = List.length (filter is_png
                      ["a.png"%string; accented_png; "c.png"%string]))%nat.
Proof.
  destruct (batch_raises_only_for_directories (console := ascii_console)
              default "shots" "processed" false accented_shots
              (or_introl eq_refl)) as [_ Hrun].
  apply (Hrun (("processed"%string, Toy.Directory) :: accented_shots)).
  - reflexivity.
  - reflexivity.
Defined.

Lemma nonpositive_target_never_succeeds_witness :
  Printing.process_image (console := ascii_console) (mk (0, 366) 2)
    "shots/a.png" "processed/a.png" true Toy.shots_ready
  <> (Toy.shots_ready, inr true).
Proof.
  apply (nonpositive_target_never_succeeds (console := ascii_console)
           (mk (0, 366) 2) "shots/a.png" "processed/a.png" true
           Toy.shots_ready Toy.brackets_100).
  - reflexivity.
  - exact brackets_100_has_content.
  - left. simpl. lia.
Defined.

Lemma undecodable_file_only_adds_a_failure_witness :
  exists w' s n,
    Printing.batch_loop (console := ascii_console) default
      "shots" "processed" false ([] ++ ["a.png"%string; "c.png"%string])
      0 0 Toy.shots_ready = (w', inr (s, n)) /\
    Printing.batch_loop (console := ascii_console) default
      "shots" "processed" false
      ([] ++ "b.PNG"%string :: ["a.png"%string; "c.png"%string])
      0 0 Toy.shots_ready = (w', inr (s, S n)).
Proof.
  apply (undecodable_file_only_adds_a_failure (console := ascii_console)
           default "shots" "processed" [] ["a.png"%string; "c.png"%string]
           "b.PNG" 0 0 0 0 Toy.shots_ready Toy.shots_ready
           (Py.OSError "cannot identify image file")).
  - reflexivity.
  - reflexivity.
Defined.

Lemma content_image_has_proper_crop_box_witness :
  3 < 97 /\ 3 < 97 /\
  exists cropped,
    crop Toy.brackets_100 (3, 3, 97, 97) = inr cropped /\
    Image_size cropped = (97 - 3, 97 - 3) /\
    (Limits.Image_crop Toy.brackets_100 (3, 3, 97, 97) = inr cropped \/
     (Limits.decompression_bomb (97 - 3, 97 - 3) = true /\
      exists msg,
        Limits.Image_crop Toy.brackets_100 (3, 3, 97, 97)
        = inl (Py.DecompressionBombError msg))).
Proof.
  apply (content_image_has_proper_crop_box default Toy.brackets_100).
  - exact brackets_100_has_content.
  - vm_compute. reflexivity.
Defined.
